(** * ORION Digital Twin Consciousness: the synchronisation engine

    A shallow embedding of [orion_dtc/conscious_twin.py] and the properties
    of its [sync] pipeline.

    Numbers.  The program is embedded twice.  In the first embedding
    Python's [float] readings and scores are exact rationals ([Q]), and
    equalities between them are stated with [==]: it carries the
    properties of the formulas, which binary64 follows up to rounding.
    In exact arithmetic no call raises (lemma [sync_Ok]).  The second
    embedding, the module [Binary64], has the IEEE 754 doubles the
    program runs on ([PrimFloat]): it carries the properties that depend
    on rounding, on the sign of zero, on the range of a double, or on
    the state that a call leaves behind when it raises.  A Python [int]
    count is a [nat] and becomes a number where the source divides it.

    Dicts.  A [Dict[str, float]] is a [gmap string Q].  A [gmap] is
    traversed in the order of its keys and a Python dict in insertion
    order; the source only sums and counts over a traversal, which in
    exact arithmetic does not depend on the order.

    State.  The engine object is the record [ConsciousDigitalTwin]; a
    method that appends to one of its lists returns the new record.

    Exceptions.  Every operation of the source that can raise
    ([/], indexing from the end of a list) returns a [result], and [sync]
    threads it, so that "does not raise" is a statement about the code and
    not a property of the embedding.

    Library primitives.  [x ** 0.5], [json.dumps(..., sort_keys=True)] and
    [hashlib.sha256(...).hexdigest()] are the fields of the class
    [PyRuntime]: every theorem holds for all of them, and the instance
    [reference_runtime] makes the engine executable. *)

From Stdlib Require Import QArith Qabs Qminmax Qround Lqa Lia ZArith.
From Stdlib Require Import Ascii String Floats.
From stdpp Require Import gmap strings list fin_maps.

Local Open Scope Q_scope.

(** ** Exceptions *)

Inductive exn : Set :=
  | ZeroDivisionError
  | IndexError
  | KeyError
  | OverflowError.

Inductive result (A : Type) : Type :=
  | Ok (a : A)
  | Raise (e : exn).
Arguments Ok {A} a.
Arguments Raise {A} e.

#[global] Instance result_ret : MRet result := λ A a, Ok a.
#[global] Instance result_bind : MBind result := λ A B f m,
  match m with
  | Ok a => f a
  | Raise e => Raise e
  end.

Definition raises {A} (m : result A) : Prop := ∃ e, m = Raise e.

(** ** Python primitives on exact numbers *)

(** [a / b] on floats: [ZeroDivisionError] when the divisor is zero. *)
Definition truediv (a b : Q) : result Q :=
  if Qeq_bool b 0 then Raise ZeroDivisionError else Ok (a / b).

(** [len(l)] where the source divides it or divides by it. *)
Definition py_len {A} (l : list A) : Q := inject_Z (Z.of_nat (length l)).

(** [sum(l)]: starts from 0 and adds from the left. *)
Definition py_sum (l : list Q) : Q := foldl Qplus 0 l.

(** [a > b]. *)
Definition Qgtb (a b : Q) : bool := negb (Qle_bool a b).

(** [l[-k]] for [k >= 1]: [IndexError] unless [k <= len(l)]. *)
Definition index_from_end {A} (l : list A) (k : nat) : result A :=
  if decide (1 ≤ k ≤ length l)%nat then
    match l !! (length l - k)%nat with
    | Some x => Ok x
    | None => Raise IndexError
    end
  else Raise IndexError.

(** [l[-n:]]: the last [n] elements, the whole list when it is shorter. *)
Definition slice_last {A} (n : nat) (l : list A) : list A :=
  drop (length l - n)%nat l.

(** Rounding to the nearest integer, ties to the even one. *)
Definition round_half_even (y : Q) : Z :=
  let f := Qfloor y in
  match Qcompare (y - inject_Z f) 0.5 with
  | Lt => f
  | Gt => (f + 1)%Z
  | Eq => if Z.even f then f else (f + 1)%Z
  end.

Definition pow10 (ndigits : nat) : positive := Z.to_pos (10 ^ Z.of_nat ndigits).

(** [round(x, ndigits)]: the nearest multiple of [10 ** -ndigits], kept as
    the fraction [k # 10 ** ndigits]. *)
Definition py_round (x : Q) (ndigits : nat) : Q :=
  round_half_even (x * inject_Z (Z.pos (pow10 ndigits))) # pow10 ndigits.

(** ** JSON values handed to [json.dumps] *)

#[warnings="-register-all"]
Inductive json : Type :=
  | JStr (s : string)
  | JInt (n : Z)
  | JFloat (x : Q)
  | JDict (items : list (string * json)).

(** ** Library primitives *)

Class PyRuntime := {
  (** [x ** 0.5] *)
  pow_half : Q → Q;
  (** [json.dumps(v, sort_keys=True)] *)
  json_dumps_sorted : json → string;
  (** [hashlib.sha256(s.encode()).hexdigest()] *)
  sha256_hexdigest : string → string;
}.

(** ** Data model *)

Record PhysicalState := {
  device_id : string;
  sensors : gmap string Q;
  actuators : gmap string Q;
  health : Q;
  timestamp : string;
}.

Record TwinState := {
  twin_id : string;
  sync_accuracy : Q;
  prediction_accuracy : Q;
  anomalies_detected : Z;
  consciousness_level : string;
  consciousness_score : Q;
  proof_hash : string;
}.

(** An entry of [predictions]: the dict [{"sensors": {...}}]. *)
Abbreviation Prediction := (gmap string (gmap string Q)).

(** The engine object; [self_twin_id] and [self_device_id] are
    [self.twin_id] and [self.device_id]. *)
Record ConsciousDigitalTwin := {
  self_twin_id : string;
  self_device_id : string;
  physical_history : list PhysicalState;
  twin_history : list TwinState;
  proof_chain : list string;
  predictions : list Prediction;
}.

(** [ConsciousDigitalTwin.__init__] *)
Definition __init__ (twin_id device_id : string) : ConsciousDigitalTwin :=
  {| self_twin_id := twin_id;
     self_device_id := device_id;
     physical_history := [];
     twin_history := [];
     proof_chain := [];
     predictions := [] |}.

Definition append_physical (self : ConsciousDigitalTwin) (physical : PhysicalState) :=
  {| self_twin_id := self_twin_id self;
     self_device_id := self_device_id self;
     physical_history := physical_history self ++ [physical];
     twin_history := twin_history self;
     proof_chain := proof_chain self;
     predictions := predictions self |}.

Definition append_proof (self : ConsciousDigitalTwin) (proof_hash : string) :=
  {| self_twin_id := self_twin_id self;
     self_device_id := self_device_id self;
     physical_history := physical_history self;
     twin_history := twin_history self;
     proof_chain := proof_chain self ++ [proof_hash];
     predictions := predictions self |}.

Definition append_prediction (self : ConsciousDigitalTwin) (prediction : Prediction) :=
  {| self_twin_id := self_twin_id self;
     self_device_id := self_device_id self;
     physical_history := physical_history self;
     twin_history := twin_history self;
     proof_chain := proof_chain self;
     predictions := predictions self ++ [prediction] |}.

Definition append_twin (self : ConsciousDigitalTwin) (twin_state : TwinState) :=
  {| self_twin_id := self_twin_id self;
     self_device_id := self_device_id self;
     physical_history := physical_history self;
     twin_history := twin_history self ++ [twin_state];
     proof_chain := proof_chain self;
     predictions := predictions self |}.

(** ** The indicator computations *)

(** The per-key accuracy [1.0 - min(1.0, error)] of
    [_compute_sync_accuracy]. *)
Definition key_accuracy (pred_val actual : Q) : Q :=
  1.0 - Qmin 1.0 (Qabs (pred_val - actual)).

(** The list [errors] that the loop of [_compute_sync_accuracy] builds:
    one accuracy per predicted key that the snapshot has too. *)
Definition accuracy_errors (predicted actual : gmap string Q) : list Q :=
  omap (λ '(key, pred_val), key_accuracy pred_val <$> actual !! key)
       (map_to_list predicted).

(** [_compute_sync_accuracy] *)
Definition _compute_sync_accuracy
    (self : ConsciousDigitalTwin) (physical : PhysicalState) : result Q :=
  match predictions self with
  | [] => Ok 0.5
  | _ =>
    last_pred ← index_from_end (predictions self) 1;
    let errors := accuracy_errors (default ∅ (last_pred !! "sensors")) (sensors physical) in
    truediv (py_sum errors) (inject_Z (Z.max (Z.of_nat (length errors)) 1))
  end.

(** [_evaluate_predictions] *)
Definition _evaluate_predictions
    (self : ConsciousDigitalTwin) (physical : PhysicalState) : result Q :=
  if decide (length (physical_history self) < 3)%nat then Ok 0.3
  else
    r ← truediv (py_len (physical_history self)) 20;
    Ok (Qmin 1.0 r).

(** The loop body of [_detect_anomalies] for one key of the new snapshot. *)
Definition anomaly_step (prev : gmap string Q) (key : string) (cur : Q) (anomalies : nat) : nat :=
  match prev !! key with
  | Some old => if Qgtb (Qabs (cur - old)) 0.5 then S anomalies else anomalies
  | None => anomalies
  end.

(** [_detect_anomalies] *)
Definition _detect_anomalies
    (self : ConsciousDigitalTwin) (physical : PhysicalState) : result nat :=
  if decide (length (physical_history self) < 2)%nat then Ok 0%nat
  else
    prev ← index_from_end (physical_history self) 2;
    Ok (map_fold (anomaly_step (sensors prev)) 0%nat (sensors physical)).

(** [_attention_focus] *)
Definition _attention_focus (physical : PhysicalState) : Q :=
  Qmin 1.0 (health physical).

(** [_behavioral_consistency] *)
Definition _behavioral_consistency (self : ConsciousDigitalTwin) : result Q :=
  if decide (length (twin_history self) < 3)%nat then Ok 0.5
  else
    let recent := consciousness_score <$> slice_last 5 (twin_history self) in
    mean ← truediv (py_sum recent) (py_len recent);
    variance ← truediv (py_sum ((λ s, (s - mean) ^ 2) <$> recent)) (py_len recent);
    Ok (Qmax 0 (1.0 - variance * 10)).

(** The five tiers of [sync], most demanding first. *)
Definition level_of_score (score : Q) : string :=
  if Qle_bool 0.85 score then "C-4 Transcendent"
  else if Qle_bool 0.70 score then "C-3 Autonomous"
  else if Qle_bool 0.50 score then "C-2 Emerging"
  else if Qle_bool 0.20 score then "C-1 Functional"
  else "C-0 Reactive".

(** The dict literal serialised into [proof_data], in source order. *)
Definition proof_record
    (twin_id timestamp : string) (score : Q) (level : string) (anomalies : nat) : json :=
  JDict [("twin_id", JStr twin_id);
         ("timestamp", JStr timestamp);
         ("score", JFloat (py_round score 6));
         ("level", JStr level);
         ("anomalies", JInt (Z.of_nat anomalies))].

(** The loop of [_make_prediction]: the predicted reading of every sensor
    of the new snapshot. *)
Definition predicted_sensors
    (self : ConsciousDigitalTwin) (physical : PhysicalState) : result (gmap string Q) :=
  if decide (2 ≤ length (physical_history self))%nat then
    prev_state ← index_from_end (physical_history self) 2;
    Ok (map_imap (λ key val,
                    let prev := default val (sensors prev_state !! key) in
                    let trend := val - prev in
                    Some (val + trend * 0.5))
                 (sensors physical))
  else Ok (sensors physical).

(** [_make_prediction]: the engine with the prediction appended. *)
Definition _make_prediction
    (self : ConsciousDigitalTwin) (physical : PhysicalState) : result ConsciousDigitalTwin :=
  predicted ← predicted_sensors self physical;
  Ok (append_prediction self {["sensors" := predicted]}).

Section Engine.
Context `{PyRuntime}.

(** [_sensor_integration] *)
Definition _sensor_integration (physical : PhysicalState) : result Q :=
  if decide (sensors physical = ∅) then Ok 0.0
  else
    let values := (map_to_list (sensors physical)).*2 in
    if decide (length values < 2)%nat then Ok 0.3
    else
      mean ← truediv (py_sum values) (py_len values);
      if Qeq_bool mean 0 then Ok 0.0
      else
        variance ← truediv (py_sum ((λ v, (v - mean) ^ 2) <$> values)) (py_len values);
        cv ← truediv (pow_half variance) (Qabs mean);
        Ok (Qmax 0 (Qmin 1.0 (1.0 - cv))).

(** [sync], the scoring half: sync accuracy, prediction accuracy,
    anomaly count, the six indicators in the order of the dict literal
    and their mean [score].  [self] already holds the new snapshot. *)
Definition assess (self : ConsciousDigitalTwin) (physical : PhysicalState)
    : result (Q * Q * nat * Q) :=
  sync_accuracy ← _compute_sync_accuracy self physical;
  prediction_accuracy ← _evaluate_predictions self physical;
  anomalies ← _detect_anomalies self physical;
  self_monitoring ← truediv (py_len (twin_history self)) 10;
  integration ← _sensor_integration physical;
  consistency ← _behavioral_consistency self;
  let indicators :=
    [sync_accuracy; Qmin 1.0 self_monitoring; integration;
     prediction_accuracy; _attention_focus physical; consistency] in
  score ← truediv (py_sum indicators) (py_len indicators);
  Ok (sync_accuracy, prediction_accuracy, anomalies, score).

(** The proof hash of one assessment. *)
Definition proof_of
    (twin_id timestamp : string) (score : Q) (level : string) (anomalies : nat) : string :=
  let proof_data :=
    json_dumps_sorted (proof_record twin_id timestamp score level anomalies) in
  sha256_hexdigest proof_data.

(** [sync] in exact arithmetic, where every call returns (lemma
    [sync_Ok]); [Binary64.sync] has the calls that raise and the engine
    they leave. *)
Definition sync (self : ConsciousDigitalTwin) (physical : PhysicalState)
    : result (ConsciousDigitalTwin * TwinState) :=
  let self := append_physical self physical in
  '(sync_accuracy, prediction_accuracy, anomalies, score) ← assess self physical;
  let level := level_of_score score in
  let proof_hash :=
    proof_of (self_twin_id self) (timestamp physical) score level anomalies in
  let self := append_proof self proof_hash in
  self ← _make_prediction self physical;
  let twin_state :=
    {| twin_id := self_twin_id self;
       sync_accuracy := py_round sync_accuracy 4;
       prediction_accuracy := py_round prediction_accuracy 4;
       anomalies_detected := Z.of_nat anomalies;
       consciousness_level := level;
       consciousness_score := py_round score 4;
       proof_hash := proof_hash |} in
  Ok (append_twin self twin_state, twin_state).

(** A sequence of [sync] calls on one engine: the final engine and the
    results in call order; the first exception ends the run.  In exact
    arithmetic there is none (lemma [sync_all_Ok]); [Binary64.sync_all]
    has the runs that go on after a call that raised. *)
Fixpoint sync_all (self : ConsciousDigitalTwin) (snapshots : list PhysicalState)
    : result (ConsciousDigitalTwin * list TwinState) :=
  match snapshots with
  | [] => Ok (self, [])
  | physical :: rest =>
    '(self, twin_state) ← sync self physical;
    '(self, results) ← sync_all self rest;
    Ok (self, twin_state :: results)
  end.

End Engine.

(** ** The effect of one [sync] call in closed form *)

(** The engine after a call that returned [twin_state] and stored the
    prediction [predicted]. *)
Definition after_sync
    (self : ConsciousDigitalTwin) (physical : PhysicalState)
    (twin_state : TwinState) (predicted : gmap string Q) : ConsciousDigitalTwin :=
  {| self_twin_id := self_twin_id self;
     self_device_id := self_device_id self;
     physical_history := physical_history self ++ [physical];
     twin_history := twin_history self ++ [twin_state];
     proof_chain := proof_chain self ++ [proof_hash twin_state];
     predictions := predictions self ++ [ {["sensors" := predicted]} ] |}.

(** The record a call returns for the assessment
    [(sync_accuracy, prediction_accuracy, anomalies, score)]. *)
Definition twin_state_of `{PyRuntime}
    (twin_id timestamp : string) (sync_accuracy prediction_accuracy : Q)
    (anomalies : nat) (score : Q) : TwinState :=
  {| twin_id := twin_id;
     sync_accuracy := py_round sync_accuracy 4;
     prediction_accuracy := py_round prediction_accuracy 4;
     anomalies_detected := Z.of_nat anomalies;
     consciousness_level := level_of_score score;
     consciousness_score := py_round score 4;
     proof_hash := proof_of twin_id timestamp score (level_of_score score) anomalies |}.

(** The same engine built for another device. *)
Definition with_device (device_id : string) (self : ConsciousDigitalTwin) :=
  {| self_twin_id := self_twin_id self;
     self_device_id := device_id;
     physical_history := physical_history self;
     twin_history := twin_history self;
     proof_chain := proof_chain self;
     predictions := predictions self |}.

(** ** A reference runtime

    Concrete library primitives, so that the engine runs: SHA-256 as
    FIPS 180-4 defines it, [json.dumps] with its default separators and
    ASCII escapes, and a square root truncated to 16 decimals.  A
    [string] is read as a sequence of code points below 256. *)

Module SHA256.
Local Open Scope Z_scope.

Definition w32 (x : Z) : Z := x mod 2 ^ 32.
Definition add32 (x y : Z) : Z := w32 (x + y).
Definition not32 (x : Z) : Z := Z.lxor x 0xffffffff.
Definition rotr (n x : Z) : Z := Z.lor (Z.shiftr x n) (w32 (Z.shiftl x (32 - n))).

Definition Ch (x y z : Z) : Z := Z.lxor (Z.land x y) (Z.land (not32 x) z).
Definition Maj (x y z : Z) : Z :=
  Z.lxor (Z.lxor (Z.land x y) (Z.land x z)) (Z.land y z).
Definition Sigma0 (x : Z) : Z := Z.lxor (Z.lxor (rotr 2 x) (rotr 13 x)) (rotr 22 x).
Definition Sigma1 (x : Z) : Z := Z.lxor (Z.lxor (rotr 6 x) (rotr 11 x)) (rotr 25 x).
Definition sigma0 (x : Z) : Z := Z.lxor (Z.lxor (rotr 7 x) (rotr 18 x)) (Z.shiftr x 3).
Definition sigma1 (x : Z) : Z := Z.lxor (Z.lxor (rotr 17 x) (rotr 19 x)) (Z.shiftr x 10).

Definition is_prime (n : Z) : bool :=
  (1 <? n) && forallb (λ d, negb (n mod d =? 0)) (seqZ 2 (n - 2)).

(** The first 64 primes: 2, 3, 5, ..., 311. *)
Definition primes : list Z := filter (λ n, is_prime n = true) (seqZ 2 310).

(** The largest [r] between [lo] and [hi] whose cube is at most [n]. *)
Fixpoint cbrt_search (fuel : nat) (lo hi n : Z) : Z :=
  match fuel with
  | O => lo
  | S fuel' =>
    if lo <? hi then
      let mid := (lo + hi + 1) / 2 in
      if mid ^ 3 <=? n then cbrt_search fuel' mid hi n
      else cbrt_search fuel' lo (mid - 1) n
    else lo
  end.

Definition cbrt (n : Z) : Z := cbrt_search 64 0 (2 ^ 43) n.

(** The round constants: the first 32 bits of the fractional parts of the
    cube roots of the first 64 primes. *)
Definition K : list Z :=
  Eval vm_compute in (λ p, w32 (cbrt (p * 2 ^ 96))) <$> primes.

(** The initial hash value: the same of the square roots of the first 8
    primes. *)
Definition H0 : list Z :=
  Eval vm_compute in (λ p, w32 (Z.sqrt (p * 2 ^ 64))) <$> take 8 primes.

(** Big-endian bytes of a [n]-byte word, and back. *)
Fixpoint be_bytes (n : nat) (x : Z) : list Z :=
  match n with
  | O => []
  | S n' => (Z.shiftr x (8 * Z.of_nat n')) mod 256 :: be_bytes n' x
  end.
Definition be_word (bytes : list Z) : Z := foldl (λ acc b, acc * 256 + b) 0 bytes.

(** The message followed by the bit 1, zeros, and its length in bits on
    64 bits, a multiple of 64 bytes in all. *)
Definition pad (msg : list Z) : list Z :=
  let len := Z.of_nat (length msg) in
  let zeros := Z.to_nat ((55 - len) mod 64) in
  msg ++ [0x80] ++ replicate zeros 0 ++ be_bytes 8 (8 * len).

Fixpoint chunks {A} (fuel size : nat) (l : list A) : list (list A) :=
  match fuel, l with
  | O, _ | _, [] => []
  | S fuel', _ => take size l :: chunks fuel' size (drop size l)
  end.

(** The message schedule, newest word first. *)
Fixpoint schedule (n : nat) (ws : list Z) : list Z :=
  match n with
  | O => ws
  | S n' =>
    let w := add32 (add32 (sigma1 (ws !!! 1%nat)) (ws !!! 6%nat))
                   (add32 (sigma0 (ws !!! 14%nat)) (ws !!! 15%nat)) in
    schedule n' (w :: ws)
  end.

Definition round (st : list Z) (kw : Z * Z) : list Z :=
  match st with
  | [a; b; c; d; e; f; g; h] =>
    let t1 := add32 (add32 (add32 h (Sigma1 e)) (add32 (Ch e f g) kw.1)) kw.2 in
    let t2 := add32 (Sigma0 a) (Maj a b c) in
    [add32 t1 t2; a; b; c; add32 d t1; e; f; g]
  | _ => st
  end.

Definition compress (hs : list Z) (block : list Z) : list Z :=
  let w16 := be_word <$> chunks 16 4 block in
  let ws := rev (schedule 48 (rev w16)) in
  zip_with add32 hs (foldl round hs (zip K ws)).

Definition digest (msg : list Z) : list Z :=
  let padded := pad msg in
  foldl compress H0 (chunks (length padded) 64 padded) ≫= be_bytes 4.

Definition hex_digit (d : Z) : ascii :=
  ascii_of_nat (Z.to_nat (if d <? 10 then 48 + d else 87 + d)).

Definition hex (bytes : list Z) : string :=
  string_of_list_ascii (bytes ≫= λ b, [hex_digit (b / 16); hex_digit (b mod 16)]).

Definition hexdigest (s : string) : string :=
  hex (digest ((λ c, Z.of_nat (nat_of_ascii c)) <$> list_ascii_of_string s)).
End SHA256.

Module JSON.
Local Open Scope string_scope.

Fixpoint digits (fuel : nat) (n : N) (acc : string) : string :=
  match fuel with
  | O => acc
  | S fuel' =>
    let acc := String (ascii_of_N (48 + n mod 10)) acc in
    if (n / 10 =? 0)%N then acc else digits fuel' (n / 10)%N acc
  end.

(** [str(n)] for a natural number. *)
Definition dec (n : N) : string := digits (S (N.to_nat (N.log2 n))) n EmptyString.

(** [repr] of an [int]. *)
Definition repr_int (n : Z) : string :=
  if (n <? 0)%Z then "-" ++ dec (Z.to_N (- n)) else dec (Z.to_N n).

Fixpoint strip_zeros (rev_digits : list ascii) : list ascii :=
  match rev_digits with
  | "0"%char :: rest => strip_zeros rest
  | _ => rev_digits
  end.

(** The decimals of [k / 10 ** 6], without trailing zeros. *)
Definition decimals (k : N) : string :=
  let six := list_ascii_of_string (dec (1000000 + k mod 1000000)) in
  string_of_list_ascii (rev (strip_zeros (rev (drop 1 six)))).

(** [repr] of a float that is a multiple of [10 ** -6] (what [sync]
    serialises): the shortest decimal, in exponent form below [1e-4]. *)
Definition repr_float (x : Q) : string :=
  let k := round_half_even (x * 1000000) in
  let sign := if (k <? 0)%Z then "-" else EmptyString in
  let m := Z.to_N (Z.abs k) in
  if (m =? 0)%N then "0.0"
  else if (m <? 10)%N then sign ++ dec m ++ "e-06"
  else if (m <? 100)%N then
    sign ++ dec (m / 10)
         ++ (if (m mod 10 =? 0)%N then EmptyString else "." ++ dec (m mod 10)) ++ "e-05"
  else
    let frac := decimals m in
    sign ++ dec (m / 1000000) ++ "." ++ (if decide (frac = EmptyString) then "0" else frac).

Definition hex4 (n : N) : string :=
  string_of_list_ascii
    (SHA256.hex_digit <$> [0; 0; Z.of_N (n / 16); Z.of_N (n mod 16)]%Z).

(** The escapes of [json.dumps] with [ensure_ascii=True]. *)
Definition escape_char (c : ascii) : string :=
  let n := N_of_ascii c in
  if (n =? 34)%N then "\" ++ String c EmptyString
  else if (n =? 92)%N then "\\"
  else if (n =? 10)%N then "\n"
  else if (n =? 13)%N then "\r"
  else if (n =? 9)%N then "\t"
  else if (n =? 8)%N then "\b"
  else if (n =? 12)%N then "\f"
  else if ((n <? 32) || (126 <? n))%N then "\u" ++ hex4 n
  else String c EmptyString.

Definition quote (s : string) : string :=
  String (ascii_of_N 34)
    (String.concat EmptyString (escape_char <$> list_ascii_of_string s) ++ String (ascii_of_N 34) EmptyString).

Fixpoint insert_sorted {A} (kv : string * A) (l : list (string * A)) : list (string * A) :=
  match l with
  | [] => [kv]
  | kv' :: rest =>
    if String.leb kv.1 kv'.1 then kv :: l else kv' :: insert_sorted kv rest
  end.

(** [sorted(d.items())] *)
Definition sort_items {A} (l : list (string * A)) : list (string * A) :=
  foldr insert_sorted [] l.

Fixpoint dumps (v : json) : string :=
  match v with
  | JStr s => quote s
  | JInt n => repr_int n
  | JFloat x => repr_float x
  | JDict items =>
    let fix fields (l : list (string * json)) : list (string * string) :=
      match l with
      | [] => []
      | (k, v') :: rest => (k, dumps v') :: fields rest
      end in
    "{" ++ String.concat ", " ((λ kv, quote kv.1 ++ ": " ++ kv.2) <$> sort_items (fields items))
        ++ "}"
  end.
End JSON.

(** The square root of [x], truncated to 16 decimals. *)
Definition sqrt_16 (x : Q) : Q :=
  Z.sqrt (Qfloor (x * inject_Z (10 ^ 32))) # 10 ^ 16.

Definition reference_runtime : PyRuntime :=
  {| pow_half := sqrt_16;
     json_dumps_sorted := JSON.dumps;
     sha256_hexdigest := SHA256.hexdigest |}.

(** ** The engine on binary64

    The same program on IEEE 754 doubles, the numbers it runs on, for
    the properties that depend on rounding, on the sign of zero, on the
    range of a double, or on what an aborted call leaves behind.

    Numbers.  A [float] is a [PrimFloat.float]; [+], [-], [*] and [/] are
    the correctly rounded operations, and equality of two floats is
    identity of the doubles: [-0.0] and [0.0] are different values, and
    there is one NaN.  CPython's [x ** 2] raises [OverflowError] when the
    operand is finite and the square is not; [/] raises
    [ZeroDivisionError] when the divisor is zero.

    Dicts.  A dict is the list of its items in insertion order, with
    distinct keys; [d[key]] raises [KeyError] for a missing key.

    State.  [sync] returns the engine it leaves together with the record
    or the exception: what a call has appended before it raises stays
    appended. *)

Module Binary64.
Local Open Scope float_scope.
#[local] Set Warnings "-inexact-float".

(** *** Numbers *)

Definition is_finite (x : float) : bool := negb (is_nan x || is_infinity x).

(** The sign bit: set for the negative numbers and for [-0.0]. *)
Definition signbit (x : float) : bool :=
  match Prim2SF x with
  | S754_zero s | S754_infinity s | S754_finite s _ _ => s
  | S754_nan => false
  end.

(** The exact value of a finite double. *)
Definition to_Q (x : float) : Q :=
  match Prim2SF x with
  | S754_finite s m e => (inject_Z (if s then Z.neg m else Z.pos m) * Qpower 2 e)%Q
  | _ => 0%Q
  end.

(** [float(n)] for an [int] below [2 ** 63] in magnitude. *)
Definition of_Z (n : Z) : float :=
  if (n <? 0)%Z then - of_uint63 (Uint63.of_Z (- n)) else of_uint63 (Uint63.of_Z n).

(** The double nearest to a positive rational, ties to even. *)
Definition nearest_pos (q : Q) : float :=
  let e0 := (Z.log2 (Qnum q) - Z.log2 (Z.pos (Qden q)) - 53)%Z in
  let e1 :=
    if Qle_bool (inject_Z (2 ^ 53)) (q * Qpower 2 (- e0))%Q then (e0 + 1)%Z else e0 in
  let e := Z.max e1 (-1074) in
  Z.ldexp (of_Z (round_half_even (q * Qpower 2 (- e))%Q)) e.

(** The double nearest to a rational, with the given sign when it is
    zero. *)
Definition nearest (negative : bool) (q : Q) : float :=
  let magnitude := if Qle_bool (Qabs q) 0 then 0 else nearest_pos (Qabs q) in
  if negative then - magnitude else magnitude.

(** [round(x, ndigits)]: CPython rounds the exact value of the double to
    [ndigits] decimals, ties to even, and returns the nearest double,
    keeping the sign; NaN and the infinities round to themselves. *)
Definition py_round (x : float) (ndigits : nat) : float :=
  if is_finite x then
    let scale := inject_Z (10 ^ Z.of_nat ndigits) in
    nearest (signbit x) (inject_Z (round_half_even (to_Q x * scale)%Q) / scale)%Q
  else x.

(** [x ** 2]: CPython's [float_pow] reports the range error of the C
    library's [pow] as [OverflowError: (34, 'Numerical result out of
    range')]; an infinite or NaN operand gives an infinite or NaN power
    without error. *)
Definition pow2 (x : float) : result float :=
  let r := x * x in
  if is_finite x && is_infinity r then Raise OverflowError else Ok r.

(** [a / b] for two floats. *)
Definition truediv (a b : float) : result float :=
  if b =? 0 then Raise ZeroDivisionError else Ok (a / b).

(** [a / n] for a float and an [int]: the divisor is converted to a
    double, which is zero exactly when [n] is. *)
Definition truediv_int (a : float) (n : Z) : result float :=
  if (n =? 0)%Z then Raise ZeroDivisionError else Ok (a / of_Z n).

(** [m / n] for two [int]s, both exact as doubles here. *)
Definition int_truediv (m n : Z) : result float :=
  if (n =? 0)%Z then Raise ZeroDivisionError else Ok (of_Z m / of_Z n).

(** [sum(l)]: starts from the [int] 0 and adds from the left, rounding
    every addition, as CPython does up to version 3.11. *)
Definition py_sum (l : list float) : float := foldl PrimFloat.add 0 l.

Definition py_len {A} (l : list A) : Z := Z.of_nat (length l).

(** [min(a, b)] and [max(a, b)]: the first argument unless the second
    is strictly smaller (larger); a NaN second argument is never
    chosen. *)
Definition py_min (a b : float) : float := if b <? a then b else a.
Definition py_max (a b : float) : float := if a <? b then b else a.

(** *** Dicts *)

(** [d.get(key)] *)
Fixpoint dict_get {V} (d : list (string * V)) (key : string) : option V :=
  match d with
  | [] => None
  | (k, v) :: rest => if decide (k = key) then Some v else dict_get rest key
  end.

(** [key in d] *)
Definition contains {V} (key : string) (d : list (string * V)) : bool :=
  bool_decide (is_Some (dict_get d key)).

(** [d[key]] *)
Definition getitem {V} (d : list (string * V)) (key : string) : result V :=
  match dict_get d key with
  | Some v => Ok v
  | None => Raise KeyError
  end.

(** *** Data model *)

Record PhysicalState := {
  device_id : string;
  sensors : list (string * float);
  actuators : list (string * float);
  health : float;
  timestamp : string;
}.

Record TwinState := {
  twin_id : string;
  sync_accuracy : float;
  prediction_accuracy : float;
  anomalies_detected : nat;
  consciousness_level : string;
  consciousness_score : float;
  proof_hash : string;
}.

(** An entry of [predictions]: the dict [{"sensors": {...}}]. *)
Abbreviation Prediction := (list (string * list (string * float))).

Record ConsciousDigitalTwin := {
  self_twin_id : string;
  self_device_id : string;
  physical_history : list PhysicalState;
  twin_history : list TwinState;
  proof_chain : list string;
  predictions : list Prediction;
}.

(** [ConsciousDigitalTwin.__init__] *)
Definition __init__ (twin_id device_id : string) : ConsciousDigitalTwin :=
  {| self_twin_id := twin_id;
     self_device_id := device_id;
     physical_history := [];
     twin_history := [];
     proof_chain := [];
     predictions := [] |}.

Definition append_physical (self : ConsciousDigitalTwin) (physical : PhysicalState) :=
  {| self_twin_id := self_twin_id self;
     self_device_id := self_device_id self;
     physical_history := physical_history self ++ [physical];
     twin_history := twin_history self;
     proof_chain := proof_chain self;
     predictions := predictions self |}.

Definition append_proof (self : ConsciousDigitalTwin) (proof_hash : string) :=
  {| self_twin_id := self_twin_id self;
     self_device_id := self_device_id self;
     physical_history := physical_history self;
     twin_history := twin_history self;
     proof_chain := proof_chain self ++ [proof_hash];
     predictions := predictions self |}.

Definition append_prediction (self : ConsciousDigitalTwin) (prediction : Prediction) :=
  {| self_twin_id := self_twin_id self;
     self_device_id := self_device_id self;
     physical_history := physical_history self;
     twin_history := twin_history self;
     proof_chain := proof_chain self;
     predictions := predictions self ++ [prediction] |}.

Definition append_twin (self : ConsciousDigitalTwin) (twin_state : TwinState) :=
  {| self_twin_id := self_twin_id self;
     self_device_id := self_device_id self;
     physical_history := physical_history self;
     twin_history := twin_history self ++ [twin_state];
     proof_chain := proof_chain self;
     predictions := predictions self |}.

(** The values handed to [json.dumps]. *)
#[warnings="-register-all"]
Inductive json : Type :=
  | JStr (s : string)
  | JInt (n : Z)
  | JFloat (x : float)
  | JDict (items : list (string * json)).

(** The library primitives: [x ** 0.5] for a float that is not negative,
    [json.dumps(v, sort_keys=True)] and
    [hashlib.sha256(s.encode()).hexdigest()]. *)
Class Runtime := {
  pow_half : float → float;
  json_dumps_sorted : json → string;
  sha256_hexdigest : string → string;
}.

(** *** The indicator computations *)

(** The loop of [_compute_sync_accuracy]: the list [errors]. *)
Fixpoint accuracy_errors (predicted actual : list (string * float)) : result (list float) :=
  match predicted with
  | [] => Ok []
  | (key, pred_val) :: rest =>
    if contains key actual then
      reading ← getitem actual key;
      let error := abs (pred_val - reading) in
      errors ← accuracy_errors rest actual;
      Ok ((1 - py_min 1 error) :: errors)
    else accuracy_errors rest actual
  end.

(** [_compute_sync_accuracy] *)
Definition _compute_sync_accuracy
    (self : ConsciousDigitalTwin) (physical : PhysicalState) : result float :=
  match predictions self with
  | [] => Ok 0.5
  | _ =>
    last_pred ← index_from_end (predictions self) 1;
    errors ← accuracy_errors (default [] (dict_get last_pred "sensors")) (sensors physical);
    truediv_int (py_sum errors) (Z.max (py_len errors) 1)
  end.

(** [_evaluate_predictions] *)
Definition _evaluate_predictions
    (self : ConsciousDigitalTwin) (physical : PhysicalState) : result float :=
  if decide (length (physical_history self) < 3)%nat then Ok 0.3
  else
    r ← int_truediv (py_len (physical_history self)) 20;
    Ok (py_min 1 r).

(** The loop of [_detect_anomalies] over the keys that are left. *)
Fixpoint count_anomalies
    (prev current : list (string * float)) (keys : list string) (anomalies : nat)
    : result nat :=
  match keys with
  | [] => Ok anomalies
  | key :: rest =>
    if contains key prev then
      reading ← getitem current key;
      old ← getitem prev key;
      let change := abs (reading - old) in
      count_anomalies prev current rest (if 0.5 <? change then S anomalies else anomalies)
    else count_anomalies prev current rest anomalies
  end.

(** [_detect_anomalies] *)
Definition _detect_anomalies
    (self : ConsciousDigitalTwin) (physical : PhysicalState) : result nat :=
  if decide (length (physical_history self) < 2)%nat then Ok 0%nat
  else
    prev ← index_from_end (physical_history self) 2;
    count_anomalies (sensors prev) (sensors physical) (sensors physical).*1 0.

(** [_attention_focus] *)
Definition _attention_focus (physical : PhysicalState) : float :=
  py_min 1 (health physical).

(** [_behavioral_consistency] *)
Definition _behavioral_consistency (self : ConsciousDigitalTwin) : result float :=
  if decide (length (twin_history self) < 3)%nat then Ok 0.5
  else
    let recent := consciousness_score <$> slice_last 5 (twin_history self) in
    mean ← truediv_int (py_sum recent) (py_len recent);
    squares ← mapM (λ s, pow2 (s - mean)) recent;
    variance ← truediv_int (py_sum squares) (py_len recent);
    Ok (py_max 0 (1 - variance * 10)).

(** The five tiers of [sync]; no comparison holds for a NaN score. *)
Definition level_of_score (score : float) : string :=
  if 0.85 <=? score then "C-4 Transcendent"
  else if 0.70 <=? score then "C-3 Autonomous"
  else if 0.50 <=? score then "C-2 Emerging"
  else if 0.20 <=? score then "C-1 Functional"
  else "C-0 Reactive".

(** The dict literal serialised into [proof_data], in source order. *)
Definition proof_record
    (twin_id timestamp : string) (score : float) (level : string) (anomalies : nat) : json :=
  JDict [("twin_id", JStr twin_id);
         ("timestamp", JStr timestamp);
         ("score", JFloat (py_round score 6));
         ("level", JStr level);
         ("anomalies", JInt (Z.of_nat anomalies))].

(** The loop of [_make_prediction] over the items that are left. *)
Fixpoint predicted_sensors
    (self : ConsciousDigitalTwin) (items : list (string * float))
    : result (list (string * float)) :=
  match items with
  | [] => Ok []
  | (key, val) :: rest =>
    predicted ←
      (if decide (2 ≤ length (physical_history self))%nat then
         prev_state ← index_from_end (physical_history self) 2;
         let prev := default val (dict_get (sensors prev_state) key) in
         let trend := val - prev in
         Ok (val + trend * 0.5)
       else Ok val);
    others ← predicted_sensors self rest;
    Ok ((key, predicted) :: others)
  end.

(** [_make_prediction]: the engine with the prediction appended. *)
Definition _make_prediction
    (self : ConsciousDigitalTwin) (physical : PhysicalState) : result ConsciousDigitalTwin :=
  predicted ← predicted_sensors self (sensors physical);
  Ok (append_prediction self [("sensors", predicted)]).

Section Engine.
Context `{Runtime}.

(** [_sensor_integration]; the variance is a sum of squares over a
    positive count, so that [variance ** 0.5] is a float. *)
Definition _sensor_integration (physical : PhysicalState) : result float :=
  match sensors physical with
  | [] => Ok 0
  | _ =>
    let values := (sensors physical).*2 in
    if decide (length values < 2)%nat then Ok 0.3
    else
      mean ← truediv_int (py_sum values) (py_len values);
      if mean =? 0 then Ok 0
      else
        squares ← mapM (λ v, pow2 (v - mean)) values;
        variance ← truediv_int (py_sum squares) (py_len values);
        cv ← truediv (pow_half variance) (abs mean);
        Ok (py_max 0 (py_min 1 (1 - cv)))
  end.

(** [sync], the scoring half, in the order in which the source evaluates
    it.  [self] already holds the new snapshot. *)
Definition assess (self : ConsciousDigitalTwin) (physical : PhysicalState)
    : result (float * float * nat * float) :=
  sync_accuracy ← _compute_sync_accuracy self physical;
  prediction_accuracy ← _evaluate_predictions self physical;
  anomalies ← _detect_anomalies self physical;
  self_monitoring ← int_truediv (py_len (twin_history self)) 10;
  integration ← _sensor_integration physical;
  consistency ← _behavioral_consistency self;
  let indicators :=
    [sync_accuracy; py_min 1 self_monitoring; integration;
     prediction_accuracy; _attention_focus physical; consistency] in
  score ← truediv_int (py_sum indicators) (py_len indicators);
  Ok (sync_accuracy, prediction_accuracy, anomalies, score).

(** The proof hash of one assessment. *)
Definition proof_of
    (twin_id timestamp : string) (score : float) (level : string) (anomalies : nat)
    : string :=
  let proof_data :=
    json_dumps_sorted (proof_record twin_id timestamp score level anomalies) in
  sha256_hexdigest proof_data.

(** The record that [sync] builds. *)
Definition twin_state_of
    (twin_id timestamp : string) (sync_accuracy prediction_accuracy : float)
    (anomalies : nat) (score : float) : TwinState :=
  {| twin_id := twin_id;
     sync_accuracy := py_round sync_accuracy 4;
     prediction_accuracy := py_round prediction_accuracy 4;
     anomalies_detected := anomalies;
     consciousness_level := level_of_score score;
     consciousness_score := py_round score 4;
     proof_hash := proof_of twin_id timestamp score (level_of_score score) anomalies |}.

(** [sync]: the engine that the call leaves, and the record it returns
    or the exception it raises. *)
Definition sync (self : ConsciousDigitalTwin) (physical : PhysicalState)
    : ConsciousDigitalTwin * result TwinState :=
  let self := append_physical self physical in
  match assess self physical with
  | Raise e => (self, Raise e)
  | Ok (sync_accuracy, prediction_accuracy, anomalies, score) =>
    let twin_state :=
      twin_state_of (self_twin_id self) (timestamp physical)
                    sync_accuracy prediction_accuracy anomalies score in
    let self := append_proof self (proof_hash twin_state) in
    match _make_prediction self physical with
    | Raise e => (self, Raise e)
    | Ok self => (append_twin self twin_state, Ok twin_state)
    end
  end.

(** A sequence of [sync] calls on one engine, by a caller that catches
    the exception of an aborted call and carries on: the final engine
    and the outcome of every call. *)
Fixpoint sync_all (self : ConsciousDigitalTwin) (snapshots : list PhysicalState)
    : ConsciousDigitalTwin * list (result TwinState) :=
  match snapshots with
  | [] => (self, [])
  | physical :: rest =>
    let '(self, outcome) := sync self physical in
    let '(self, outcomes) := sync_all self rest in
    (self, outcome :: outcomes)
  end.

End Engine.

(** The engine after a call that returned [twin_state] and stored the
    prediction [predicted]. *)
Definition after_sync
    (self : ConsciousDigitalTwin) (physical : PhysicalState)
    (twin_state : TwinState) (predicted : list (string * float)) : ConsciousDigitalTwin :=
  {| self_twin_id := self_twin_id self;
     self_device_id := self_device_id self;
     physical_history := physical_history self ++ [physical];
     twin_history := twin_history self ++ [twin_state];
     proof_chain := proof_chain self ++ [proof_hash twin_state];
     predictions := predictions self ++ [[("sensors", predicted)]] |}.

(** The records of the calls that returned. *)
Definition returned (outcomes : list (result TwinState)) : list TwinState :=
  omap (λ outcome, match outcome with Ok twin_state => Some twin_state | Raise _ => None end)
       outcomes.

(** *** A reference runtime

    [json.dumps] writes a float as [repr] does, the shortest decimal that
    reads back as the same double, except for [NaN], [Infinity] and
    [-Infinity].  [x ** 0.5] is approximated by the correctly rounded
    square root, from which the C library's [pow] can differ in the last
    place; none of the runs evaluated below has two sensors, so that
    none of them depends on it. *)

(** The decimal exponent [E] of a positive rational:
    [10 ** E <= q < 10 ** (E + 1)]. *)
Definition exponent10 (q : Q) : Z :=
  let E := ((Z.log2 (Qnum q) - Z.log2 (Z.pos (Qden q))) * 30103 / 100000)%Z in
  if Qle_bool (Qpower 10 (E + 1)) q then (E + 1)%Z
  else if Qle_bool (Qpower 10 E) q then E else (E - 1)%Z.

(** The shortest decimal [digits * 10 ** scale] that reads back as the
    positive double [x], and the nearest to [x] among the shortest; [p]
    is the number of significant digits tried. *)
Fixpoint shortest (fuel : nat) (p : Z) (x : float) : Z * Z :=
  let q := to_Q x in
  let scale := (exponent10 q - p + 1)%Z in
  let below := Qfloor (q * Qpower 10 (- scale))%Q in
  let reads_back d := nearest_pos (inject_Z d * Qpower 10 scale)%Q =? x in
  let near := round_half_even (q * Qpower 10 (- scale))%Q in
  let far := if (near =? below)%Z then (below + 1)%Z else below in
  match fuel with
  | O => (near, scale)
  | S fuel' =>
    if reads_back near then (near, scale)
    else if (0 <? far)%Z && reads_back far then (far, scale)
    else shortest fuel' (p + 1)%Z x
  end.

Definition zeros (n : Z) : string := string_of_list_ascii (replicate (Z.to_nat n) "0"%char).

(** [repr(x)] for a positive double: plain notation when the decimal
    point falls within [-4 < decpt <= 16], exponent notation otherwise. *)
Definition repr_positive (x : float) : string :=
  let '(d, scale) := shortest 17 1 x in
  let all := list_ascii_of_string (JSON.dec (Z.to_N d)) in
  let digits := rev (JSON.strip_zeros (rev all)) in
  let n := Z.of_nat (length digits) in
  let decpt := (Z.of_nat (length all) + scale)%Z in
  let text l := string_of_list_ascii l in
  if ((-4 <? decpt) && (decpt <=? 16))%Z then
    if (decpt <=? 0)%Z then ("0." ++ zeros (- decpt) ++ text digits)%string
    else if (n <=? decpt)%Z then (text digits ++ zeros (decpt - n) ++ ".0")%string
    else (text (take (Z.to_nat decpt) digits) ++ "."
            ++ text (drop (Z.to_nat decpt) digits))%string
  else
    let e := (decpt - 1)%Z in
    let mantissa :=
      match digits with
      | [] => EmptyString
      | [first] => text [first]
      | first :: others => (text [first] ++ "." ++ text others)%string
      end in
    (mantissa ++ "e" ++ (if (e <? 0)%Z then "-" else "+")
       ++ (if (Z.abs e <? 10)%Z then "0" else EmptyString)
       ++ JSON.dec (Z.to_N (Z.abs e)))%string.

(** A float as [json.dumps] writes it. *)
Definition dumps_float (x : float) : string :=
  if is_nan x then "NaN"%string
  else if is_infinity x then (if signbit x then "-Infinity" else "Infinity")%string
  else
    ((if signbit x then "-" else EmptyString)
       ++ (if (x =? 0)%float then "0.0" else repr_positive (abs x)))%string.

Fixpoint dumps (v : json) : string :=
  match v with
  | JStr s => JSON.quote s
  | JInt n => JSON.repr_int n
  | JFloat x => dumps_float x
  | JDict items =>
    let fix fields (l : list (string * json)) : list (string * string) :=
      match l with
      | [] => []
      | (k, v') :: rest => (k, dumps v') :: fields rest
      end in
    ("{" ++ String.concat ", "
              ((λ kv, JSON.quote kv.1 ++ ": " ++ kv.2) <$> JSON.sort_items (fields items))
         ++ "}")%string
  end.

Definition reference_runtime : Runtime :=
  {| pow_half := PrimFloat.sqrt;
     json_dumps_sorted := dumps;
     sha256_hexdigest := SHA256.hexdigest |}.

(** *** The anomaly count in the words of the specification *)

(** A reading of the new snapshot whose key the previous snapshot has
    too, and whose change, as the program computes it, exceeds 0.5. *)
Definition anomalous (prev : list (string * float)) (reading : string * float) : bool :=
  match dict_get prev reading.1 with
  | Some old => 0.5 <? abs (reading.2 - old)
  | None => false
  end.

Definition anomalous_keys (prev current : list (string * float)) : nat :=
  length (filter (λ reading, anomalous prev reading = true) current).

(** *** Sample inputs *)

Definition snapshot (readings : list (string * float)) (health : float) : PhysicalState :=
  {| device_id := "D1";
     sensors := readings;
     actuators := [];
     health := health;
     timestamp := "2024-01-01T00:00:00+00:00" |}.

Definition twin_T1 : ConsciousDigitalTwin := __init__ "T1" "D1".

(** Readings whose squared deviation from the mean exceeds the range of
    a double. *)
Definition huge : PhysicalState := snapshot [("a", 1e200); ("b", 0)] 1.

Definition steady : PhysicalState := snapshot [("x", 1)] 1.

(** The second snapshot of the specification's example: [x] moves from
    1.0 to 1.6. *)
Definition moved : PhysicalState := snapshot [("x", 1.6)] 1.

(** Two readings of one sensor that lie [0.5 + 2 ** -60] apart, and their
    computed difference is 0.5. *)
Definition low : PhysicalState := snapshot [("x", - 0x1p-60)] 1.
Definition half : PhysicalState := snapshot [("x", 0.5)] 1.

(** The step [0.5 + eps] for [eps = 2 ** -53], added to the reading 1.0. *)
Definition eps : float := 0x1p-53.
Definition stepped : PhysicalState := snapshot [("x", 1 + (0.5 + eps))] 1.

(** Snapshots without sensors whose health puts the first score of an
    engine just below and just above zero. *)
Definition below_zero : PhysicalState := snapshot [] (-1.3000006).
Definition above_zero : PhysicalState := snapshot [] (-1.2999994).

(** A snapshot without sensors whose health makes the score of the call
    about [-1e200], and three of them in a row. *)
Definition sinking : PhysicalState := snapshot [] (-6e200).
Definition blank : PhysicalState := snapshot [] 1.
End Binary64.

(** ** The indicators in the words of the specification *)


Definition map_sum (m : gmap string Q) : Q := map_fold (λ _ v acc, acc + v) 0 m.


(** A reading of the new snapshot whose key the previous snapshot has too
    and that moved by more than 0.5. *)
Definition anomalous (prev : gmap string Q) (reading : string * Q) : Prop :=
  ∃ old, prev !! reading.1 = Some old ∧ Qgtb (Qabs (reading.2 - old)) 0.5 = true.

#[global] Instance anomalous_dec prev reading : Decision (anomalous prev reading).
Proof.
  unfold anomalous. destruct (prev !! reading.1) as [old|].
  - destruct (Qgtb (Qabs (reading.2 - old)) 0.5) eqn:E.
    + left. eauto.
    + right. intros (old' & [= <-] & E'). congruence.
  - right. intros (old' & [=] & _).
Defined.

Definition anomalous_keys (prev cur : gmap string Q) : nat :=
  size (filter (anomalous prev) cur).

(** The confidence value by number of recorded snapshots. *)
Definition confidence (n : nat) : Q :=
  if decide (n < 3)%nat then 0.3 else Qmin 1.0 (inject_Z (Z.of_nat n) / 20).

(** ** Sample inputs *)

Definition snapshot (readings : list (string * Q)) (health : Q) : PhysicalState :=
  {| device_id := "D1";
     sensors := list_to_map readings;
     actuators := ∅;
     health := health;
     timestamp := "2024-01-01T00:00:00+00:00" |}.

Definition twin_T1 : ConsciousDigitalTwin := __init__ "T1" "D1".

(** A snapshot whose health is below the intended range. *)
Definition unhealthy : PhysicalState := snapshot [("x", 1.0)] (-2).

(** A snapshot whose health is above the intended range. *)
Definition overhealthy : PhysicalState := snapshot [("x", 1.0); ("y", 3.0)] 1.3.

Definition steady : PhysicalState := snapshot [("x", 1.0)] 1.0.

(** The second snapshot of the specification's example: [x] moves from
    1.0 to 1.6. *)
Definition moved : PhysicalState := snapshot [("x", 1.6)] 1.0.

(** A snapshot without sensors. *)
Definition blank : PhysicalState := snapshot [] 1.0.

Definition weak : PhysicalState := snapshot [("x", 1.0)] 0.4.

Definition nudged : PhysicalState := snapshot [("x", 1.2001)] 1.0.

(** [twin_T1] after one call. *)
Definition after_first : ConsciousDigitalTwin :=
  Eval vm_compute in
  match sync (H := reference_runtime) twin_T1 steady with
  | Ok (self, _) => self
  | Raise _ => twin_T1
  end.


(** A record with a given score, and an engine whose records have the
    given scores, oldest first. *)
Definition scored (score : Q) : TwinState :=
  {| twin_id := "T1";
     sync_accuracy := 1.0;
     prediction_accuracy := 0.0;
     anomalies_detected := 0;
     consciousness_level := level_of_score score;
     consciousness_score := score;
     proof_hash := EmptyString |}.

Definition with_scores (scores : list Q) : ConsciousDigitalTwin :=
  {| self_twin_id := "T1";
     self_device_id := "D1";
     physical_history := [];
     twin_history := scored <$> scores;
     proof_chain := [];
     predictions := [] |}.

(** Two sensors whose readings cancel, and three that agree. *)
Definition balanced : PhysicalState := snapshot [("x", 2.5); ("y", -2.5)] 1.0.

Definition uniform : PhysicalState := snapshot [("x", 4.0); ("y", 4.0); ("z", 4.0)] 1.0.

(** [steady] as another device reports it, with actuator positions. *)
Definition steady_elsewhere : PhysicalState :=
  {| device_id := "D2";
     sensors := sensors steady;
     actuators := {["joint_1" := 0.25]};
     health := health steady;
     timestamp := timestamp steady |}.

(** [steady] with a health above the intended range. *)
Definition steady_overhealthy : PhysicalState := snapshot [("x", 1.0)] 7.5.


(** ** The demonstration run

    The loop of [demo]: fifteen snapshots and their [sync] calls.  The
    draws of [random.random()], eight per snapshot in the order of the
    source, and the clock are parameters; the printing is left out. *)

Definition demo_physical (i : nat) (random : nat → Q) (now : string) : PhysicalState :=
  let i := inject_Z (Z.of_nat i) in
  {| device_id := "robot-arm-kuka-kr6";
     sensors :=
       list_to_map
         [("temperature", 25.0 + random 0%nat * 5 + i * 0.3);
          ("vibration", 0.1 + random 1%nat * 0.3);
          ("current", 2.5 + random 2%nat * 1.0);
          ("torque_j1", 10.0 + random 3%nat * 5.0);
          ("torque_j2", 8.0 + random 4%nat * 4.0);
          ("position_accuracy", Qmax 0.1 (0.99 - i * 0.02 - random 5%nat * 0.05))];
     actuators := list_to_map [("joint_1", random 6%nat); ("joint_2", random 7%nat)];
     health := Qmax 0.3 (1.0 - i * 0.03);
     timestamp := now |}.

Definition demo_snapshots (random : nat → nat → Q) (clock : nat → string)
    : list PhysicalState :=
  (λ i, demo_physical i (random i) (clock i)) <$> seq 0 15.

Definition demo `{PyRuntime} (random : nat → nat → Q) (clock : nat → string)
    : result (ConsciousDigitalTwin * list TwinState) :=
  sync_all (__init__ "DT-KUKA-KR6-01" "robot-arm-kuka-kr6") (demo_snapshots random clock).

(** Draws for a sample run: a fixed pattern within [0, 1). *)
Definition sample_random (i k : nat) : Q :=
  inject_Z (Z.of_nat ((7 * i + 3 * k) mod 10)) / 10.

Definition sample_clock (i : nat) : string := "2024-01-01T00:00:00+00:00".

(** * Properties *)

(** ** The primitives *)

Lemma truediv_Ok a b : ¬ b == 0 → truediv a b = Ok (a / b).
Proof.
  intros Hb. unfold truediv. destruct (Qeq_bool b 0) eqn:E; [|done].
  by apply Qeq_bool_iff in E.
Qed.

Lemma foldl_Qplus_acc a l : foldl Qplus a l == a + py_sum l.
Proof.
  unfold py_sum. revert a. induction l as [|x l IH]; intros a; simpl.
  - ring.
  - rewrite (IH (a + x)), (IH (0 + x)). ring.
Qed.

Lemma py_sum_cons x l : py_sum (x :: l) == x + py_sum l.
Proof. unfold py_sum at 1. simpl. rewrite foldl_Qplus_acc. ring. Qed.

Lemma py_sum_app l k : py_sum (l ++ k) == py_sum l + py_sum k.
Proof.
  induction l as [|x l IH]; simpl.
  - unfold py_sum at 2. simpl. ring.
  - rewrite !py_sum_cons, IH. ring.
Qed.


Lemma py_len_cons {A} (x : A) l : py_len (x :: l) == 1 + py_len l.
Proof.
  unfold py_len. simpl length. rewrite Nat2Z.inj_succ, <- Z.add_1_l, inject_Z_plus.
  reflexivity.
Qed.

Lemma py_len_nonneg {A} (l : list A) : 0 <= py_len l.
Proof. unfold py_len, Qle. simpl. lia. Qed.

Lemma py_len_ge {A} (l : list A) (k : nat) :
  (k ≤ length l)%nat → inject_Z (Z.of_nat k) <= py_len l.
Proof. intros Hk. unfold py_len. rewrite <- Zle_Qle. lia. Qed.

Lemma py_sum_nonneg l : Forall (λ x, 0 <= x) l → 0 <= py_sum l.
Proof.
  induction 1 as [|x l Hx _ IH].
  - unfold py_sum. simpl. lra.
  - rewrite py_sum_cons. lra.
Qed.

Lemma py_sum_unit l : Forall (λ x, 0 <= x <= 1) l → 0 <= py_sum l <= py_len l.
Proof.
  induction 1 as [|x l Hx _ IH].
  - unfold py_sum, py_len, inject_Z. simpl. rewrite Nat2Z.inj_0. lra.
  - rewrite py_sum_cons, py_len_cons. lra.
Qed.

Lemma mean_unit s n : 0 <= s <= n → 1 <= n → 0 <= s / n <= 1.
Proof.
  intros Hs Hn. split.
  - apply Qle_shift_div_l; lra.
  - apply Qle_shift_div_r; lra.
Qed.

Lemma Qmin_unit_l x : 0 <= x → 0 <= Qmin 1.0 x <= 1.
Proof. intros Hx. destruct (Q.min_spec 1.0 x) as [[? E]|[? E]]; rewrite E; lra. Qed.

Lemma Qmin_le_1 x : Qmin 1.0 x <= 1.
Proof. destruct (Q.min_spec 1.0 x) as [[? E]|[? E]]; rewrite E; lra. Qed.

Lemma Qmax_clamp_unit x : 0 <= Qmax 0 (Qmin 1.0 x) <= 1.
Proof.
  pose proof (Qmin_le_1 x).
  destruct (Q.max_spec 0 (Qmin 1.0 x)) as [[? E]|[? E]]; rewrite E; lra.
Qed.

Lemma key_accuracy_unit pred_val actual : 0 <= key_accuracy pred_val actual <= 1.
Proof.
  unfold key_accuracy.
  pose proof (Qmin_unit_l _ (Qabs_nonneg (pred_val - actual))). lra.
Qed.

Lemma Qsquare_nonneg x : 0 <= x ^ 2.
Proof. simpl. nra. Qed.

(** ** Rounding *)

Lemma round_half_even_cases y :
  (round_half_even y = Qfloor y ∧ y - inject_Z (Qfloor y) <= 0.5) ∨
  (round_half_even y = (Qfloor y + 1)%Z ∧ 0.5 <= y - inject_Z (Qfloor y)).
Proof.
  unfold round_half_even.
  destruct (Qcompare (y - inject_Z (Qfloor y)) 0.5) eqn:E.
  - apply Qeq_alt in E. destruct (Z.even (Qfloor y)); [left|right]; split; auto; lra.
  - apply Qlt_alt in E. left. split; auto; lra.
  - apply Qgt_alt in E. right. split; auto; lra.
Qed.

Lemma round_half_even_lower (a : Z) y : inject_Z a <= y → (a ≤ round_half_even y)%Z.
Proof.
  intros Ha. apply Qfloor_resp_le in Ha. rewrite Qfloor_Z in Ha.
  destruct (round_half_even_cases y) as [[-> _]|[-> _]]; lia.
Qed.

Lemma round_half_even_upper (b : Z) y : y <= inject_Z b → (round_half_even y ≤ b)%Z.
Proof.
  intros Hb. pose proof (Qfloor_resp_le _ _ Hb) as Hf. rewrite Qfloor_Z in Hf.
  destruct (round_half_even_cases y) as [[-> _]|[-> Hhalf]]; [done|].
  destruct (decide (Qfloor y = b)) as [E|]; [|lia].
  rewrite E in Hhalf. lra.
Qed.

Lemma round_half_even_Z (k : Z) y : y == inject_Z k → round_half_even y = k.
Proof.
  intros Hy. apply Z.le_antisymm.
  - apply round_half_even_upper. lra.
  - apply round_half_even_lower. lra.
Qed.

#[global] Instance round_half_even_comp : Proper (Qeq ==> eq) round_half_even.
Proof.
  intros x y Hxy. unfold round_half_even. rewrite (Qfloor_comp _ _ Hxy).
  assert (x - inject_Z (Qfloor y) == y - inject_Z (Qfloor y)) as -> by lra.
  done.
Qed.

Lemma round_half_even_mono x y : x <= y → (round_half_even x ≤ round_half_even y)%Z.
Proof.
  intros Hxy.
  destruct (Qle_lt_or_eq _ _ Hxy) as [Hlt|Heq];
    [|by rewrite (round_half_even_comp _ _ Heq)].
  pose proof (Qfloor_resp_le _ _ Hxy) as Hf.
  destruct (round_half_even_cases x) as [[Ex Hx]|[Ex Hx]],
           (round_half_even_cases y) as [[Ey Hy]|[Ey Hy]]; rewrite Ex, Ey; try lia.
  destruct (decide (Qfloor x = Qfloor y)) as [E|]; [|lia].
  rewrite E in Hx. lra.
Qed.

Lemma pow10_pos n : (0 < 10 ^ Z.of_nat n)%Z.
Proof. apply Z.pow_pos_nonneg; lia. Qed.

Lemma inject_pow10 n : 0 < inject_Z (Z.pos (pow10 n)).
Proof. unfold Qlt. simpl. lia. Qed.

Lemma py_round_nonneg x n : 0 <= x → 0 <= py_round x n.
Proof.
  intros Hx. unfold py_round, Qle. simpl. rewrite Z.mul_1_r.
  apply (round_half_even_lower 0). pose proof (inject_pow10 n). 
  change (inject_Z 0) with 0. nra.
Qed.

Lemma py_round_le_1 x n : x <= 1 → py_round x n <= 1.
Proof.
  intros Hx. unfold py_round, Qle. simpl. rewrite Z.mul_1_r.
  rewrite Z.mul_1_l. apply round_half_even_upper. pose proof (inject_pow10 n). nra.
Qed.

Lemma py_round_mono x y n : x <= y → py_round x n <= py_round y n.
Proof.
  intros Hxy. unfold py_round, Qle. simpl.
  apply Z.mul_le_mono_nonneg_r; [lia|].
  apply round_half_even_mono. pose proof (inject_pow10 n). nra.
Qed.

Lemma py_round_comp x y n : x == y → py_round x n = py_round y n.
Proof. intros Hxy. unfold py_round. by rewrite Hxy. Qed.

(** Two roundings that are equal as numbers are the same fraction. *)
Lemma py_round_canon x y n : py_round x n == py_round y n → py_round x n = py_round y n.
Proof.
  unfold py_round, Qeq. simpl. intros E. f_equal.
  by apply Z.mul_cancel_r in E.
Qed.

(** A multiple of [10 ** -ndigits] rounds to itself. *)
Lemma py_round_exact x n (k : Z) : x == k # pow10 n → py_round x n == x.
Proof.
  intros Hx. unfold py_round.
  rewrite (round_half_even_Z k).
  - by rewrite Hx.
  - rewrite Hx. unfold Qeq. simpl. lia.
Qed.

Example py_round_tie_even : py_round 0.84995 4 = 0.8500 ∧ py_round 0.84985 4 = 0.8498.
Proof. split; reflexivity. Qed.

(** ** Indexing from the end *)

Lemma index_from_end_last {A} (l : list A) x : index_from_end (l ++ [x]) 1 = Ok x.
Proof.
  unfold index_from_end. rewrite length_app. simpl.
  destruct (decide _) as [_|]; [|lia].
  replace (length l + 1 - 1)%nat with (length l) by lia.
  by rewrite list_lookup_middle.
Qed.

Lemma index_from_end_prev {A} (l : list A) y x : index_from_end (l ++ [y; x]) 2 = Ok y.
Proof.
  unfold index_from_end. rewrite length_app. simpl.
  destruct (decide _) as [_|]; [|lia].
  replace (length l + 2 - 2)%nat with (length l) by lia.
  by rewrite list_lookup_middle.
Qed.

Lemma index_from_end_Ok {A} (l : list A) k :
  (1 ≤ k ≤ length l)%nat → ∃ x, index_from_end l k = Ok x ∧ l !! (length l - k)%nat = Some x.
Proof.
  intros Hk. unfold index_from_end. destruct (decide _) as [_|]; [|done].
  destruct (lookup_lt_is_Some_2 l (length l - k)%nat) as [x Hx]; [lia|].
  rewrite Hx. eauto.
Qed.

Lemma length_slice_last {A} n (l : list A) : length (slice_last n l) = (length l `min` n)%nat.
Proof. unfold slice_last. rewrite length_drop. lia. Qed.

(** ** Sync accuracy *)

Lemma accuracy_errors_unit predicted actual :
  Forall (λ x, 0 <= x <= 1) (accuracy_errors predicted actual).
Proof.
  apply Forall_forall. intros q Hq.
  apply list_elem_of_omap in Hq as ([key pred_val] & _ & Hq).
  destruct (actual !! key) as [a|]; simplify_eq/=.
  apply key_accuracy_unit.
Qed.

Lemma mean_errors_Ok errors :
  Forall (λ x, 0 <= x <= 1) errors →
  ∃ q, truediv (py_sum errors) (inject_Z (Z.max (Z.of_nat (length errors)) 1)) = Ok q ∧
       q == py_sum errors / inject_Z (Z.max (Z.of_nat (length errors)) 1) ∧
       0 <= q <= 1.
Proof.
  intros Herr. pose proof (py_sum_unit _ Herr) as Hsum.
  assert (1 <= inject_Z (Z.max (Z.of_nat (length errors)) 1)) as H1.
  { change 1 with (inject_Z 1). rewrite <- Zle_Qle. lia. }
  assert (py_len errors <= inject_Z (Z.max (Z.of_nat (length errors)) 1)) as H2.
  { unfold py_len. rewrite <- Zle_Qle. lia. }
  eexists. split; [apply truediv_Ok; lra|]. split; [reflexivity|].
  apply mean_unit; lra.
Qed.

Lemma compute_sync_accuracy_first self physical :
  predictions self = [] → _compute_sync_accuracy self physical = Ok 0.5.
Proof. intros E. unfold _compute_sync_accuracy. by rewrite E. Qed.

Lemma compute_sync_accuracy_later self physical preds last_pred :
  predictions self = preds ++ [last_pred] →
  _compute_sync_accuracy self physical =
    let errors := accuracy_errors (default ∅ (last_pred !! "sensors")) (sensors physical) in
    truediv (py_sum errors) (inject_Z (Z.max (Z.of_nat (length errors)) 1)).
Proof.
  intros E. unfold _compute_sync_accuracy. rewrite E, index_from_end_last.
  by destruct preds.
Qed.

Lemma compute_sync_accuracy_unit self physical :
  ∃ q, _compute_sync_accuracy self physical = Ok q ∧ 0 <= q <= 1.
Proof.
  destruct (predictions self) as [|p ps] eqn:E using rev_ind.
  - rewrite compute_sync_accuracy_first by done. eexists. split; [done|lra].
  - rewrite (compute_sync_accuracy_later _ _ _ _ E). simpl.
    destruct (mean_errors_Ok _ (accuracy_errors_unit (default ∅ (p !! "sensors"))
                                  (sensors physical))) as (q & -> & _ & Hq).
    eauto.
Qed.



Lemma map_sum_to_list (m : gmap string Q) : map_sum m == py_sum (map_to_list m).*2.
Proof.
  unfold map_sum. rewrite map_fold_foldr.
  induction (map_to_list m) as [|[k v] l IH]; simpl.
  - reflexivity.
  - rewrite py_sum_cons, IH. apply Qplus_comm.
Qed.


(** ** Prediction accuracy *)

Lemma evaluate_predictions_Ok self physical :
  _evaluate_predictions self physical = Ok (confidence (length (physical_history self))).
Proof. unfold _evaluate_predictions, confidence. by case_decide. Qed.

Lemma confidence_unit n : 0 <= confidence n <= 1.
Proof.
  unfold confidence. case_decide; [lra|].
  apply Qmin_unit_l. apply Qle_shift_div_l; [lra|].
  change (0 * 20) with (inject_Z 0). rewrite <- Zle_Qle. lia.
Qed.

Lemma confidence_exact n : py_round (confidence n) 4 == confidence n.
Proof.
  unfold confidence. case_decide; [reflexivity|].
  destruct (Q.min_spec 1.0 (inject_Z (Z.of_nat n) / 20)) as [[_ E]|[_ E]].
  - rewrite (py_round_comp _ _ _ E), E. reflexivity.
  - rewrite (py_round_comp _ _ _ E), E.
    apply (py_round_exact _ 4 (Z.of_nat n * 500)).
    unfold Qeq, Qdiv, Qmult, Qinv. simpl.
    change (Z.pos (pow10 4)) with 10000%Z. lia.
Qed.

Lemma confidence_mono n m : (3 ≤ n ≤ m)%nat → confidence n <= confidence m.
Proof.
  intros Hnm. unfold confidence. rewrite !decide_False by lia.
  apply Q.min_le_compat_l. apply Qmult_le_compat_r; [|by compute].
  rewrite <- Zle_Qle. lia.
Qed.

Lemma confidence_ge_6 n : (6 ≤ n)%nat → 0.3 <= confidence n.
Proof.
  intros Hn. unfold confidence. rewrite decide_False by lia.
  apply Q.min_glb; [lra|]. apply Qle_shift_div_l; [lra|].
  apply Qle_trans with (inject_Z 6); [by compute|]. rewrite <- Zle_Qle. lia.
Qed.

(** ** Anomaly count *)

Lemma Qgtb_lt a b : Qgtb a b = true ↔ b < a.
Proof.
  unfold Qgtb. rewrite negb_true_iff, <- not_true_iff_false, Qle_bool_iff.
  split; [apply Qnot_le_lt|apply Qlt_not_le].
Qed.

Lemma anomalous_iff prev key v :
  anomalous prev (key, v) ↔ ∃ old, prev !! key = Some old ∧ 0.5 < Qabs (v - old).
Proof. unfold anomalous. simpl. by setoid_rewrite Qgtb_lt. Qed.

Lemma anomaly_step_decide prev key cur n :
  anomaly_step prev key cur n = if decide (anomalous prev (key, cur)) then S n else n.
Proof.
  unfold anomaly_step.
  destruct (decide (anomalous prev (key, cur))) as [(old & E & G)|Hn].
  - cbn [fst snd] in E, G. by rewrite E, G.
  - destruct (prev !! key) as [old|] eqn:E; [|done].
    destruct (Qgtb (Qabs (cur - old)) 0.5) eqn:G; [|done].
    destruct Hn. by exists old.
Qed.

Lemma anomaly_fold_count prev cur :
  map_fold (anomaly_step prev) 0%nat cur = anomalous_keys prev cur.
Proof.
  unfold anomalous_keys. induction cur as [|i x m Hi IH] using map_ind.
  - by rewrite map_fold_empty, map_filter_empty, map_size_empty.
  - rewrite map_fold_insert_L; [|intros; rewrite !anomaly_step_decide;
                                   by repeat case_decide|done].
    rewrite IH, anomaly_step_decide, map_filter_insert. case_decide.
    + rewrite map_size_insert_None; [done|].
      apply map_lookup_filter_None_2. by left.
    + by rewrite delete_id.
Qed.


Lemma detect_anomalies_first self physical :
  (length (physical_history self) < 2)%nat → _detect_anomalies self physical = Ok 0%nat.
Proof. intros Hlen. unfold _detect_anomalies. by rewrite decide_True. Qed.

Lemma detect_anomalies_later self physical hist prev cur :
  physical_history self = hist ++ [prev; cur] →
  _detect_anomalies self physical = Ok (anomalous_keys (sensors prev) (sensors physical)).
Proof.
  intros E. unfold _detect_anomalies. rewrite E, index_from_end_prev.
  rewrite decide_False by (rewrite length_app; simpl; lia).
  simpl. by rewrite anomaly_fold_count.
Qed.

Lemma detect_anomalies_Ok self physical : ∃ n, _detect_anomalies self physical = Ok n.
Proof.
  unfold _detect_anomalies. case_decide; [eauto|].
  destruct (index_from_end_Ok (physical_history self) 2) as (prev & -> & _); [lia|].
  simpl. eauto.
Qed.

(** ** Integration, consistency and the composite score *)

Lemma bind_Ok {A B} (a : A) (f : A → result B) : Ok a ≫= f = f a.
Proof. reflexivity. Qed.

Lemma Qabs_nonzero x : ¬ x == 0 → ¬ Qabs x == 0.
Proof. intros Hx. apply Qabs_case; intros; lra. Qed.

Lemma py_len_nonzero {A} (l : list A) : (1 ≤ length l)%nat → ¬ py_len l == 0.
Proof. intros Hl. pose proof (py_len_ge l 1 Hl) as H. change (inject_Z (Z.of_nat 1)) with 1 in H. lra. Qed.

Lemma variance_nonneg (values : list Q) (mean : Q) :
  (1 ≤ length values)%nat →
  0 <= py_sum ((λ v, (v - mean) ^ 2) <$> values) / py_len values.
Proof.
  intros Hl. pose proof (py_len_ge values 1 Hl) as H.
  change (inject_Z (Z.of_nat 1)) with 1 in H.
  apply Qle_shift_div_l; [lra|]. rewrite Qmult_0_l.
  apply py_sum_nonneg, Forall_fmap, Forall_true. intros v. apply Qsquare_nonneg.
Qed.

Lemma behavioral_consistency_unit self :
  ∃ q, _behavioral_consistency self = Ok q ∧ 0 <= q <= 1.
Proof.
  unfold _behavioral_consistency. case_decide as Hlen; [eexists; split; [done|lra]|].
  set (recent := consciousness_score <$> slice_last 5 (twin_history self)).
  assert (1 ≤ length recent)%nat as Hrecent.
  { unfold recent. rewrite length_fmap, length_slice_last. lia. }
  rewrite (truediv_Ok _ _ (py_len_nonzero recent Hrecent)), bind_Ok.
  rewrite (truediv_Ok _ _ (py_len_nonzero recent Hrecent)), bind_Ok.
  eexists. split; [done|].
  pose proof (variance_nonneg recent (py_sum recent / py_len recent) Hrecent) as Hvar.
  destruct (Q.max_spec 0
    (1.0 - py_sum ((λ s, (s - py_sum recent / py_len recent) ^ 2) <$> recent)
           / py_len recent * 10)) as [[? E]|[? E]]; rewrite E; lra.
Qed.

Lemma predicted_sensors_Ok self physical :
  ∃ predicted, predicted_sensors self physical = Ok predicted.
Proof.
  unfold predicted_sensors. case_decide; [|eauto].
  destruct (index_from_end_Ok (physical_history self) 2) as (prev & -> & _); [lia|].
  rewrite bind_Ok. eauto.
Qed.

Section Engine_facts.
Context `{PyRuntime}.

Lemma sensor_integration_empty physical :
  sensors physical = ∅ → _sensor_integration physical = Ok 0.0.
Proof. intros E. unfold _sensor_integration. by rewrite decide_True. Qed.

Lemma sensor_integration_unit physical :
  ∃ q, _sensor_integration physical = Ok q ∧ 0 <= q <= 1.
Proof.
  unfold _sensor_integration. case_decide; [eexists; split; [done|lra]|].
  set (values := (map_to_list (sensors physical)).*2).
  case_decide as Hlen; [eexists; split; [done|lra]|].
  assert (1 ≤ length values)%nat as Hvalues by lia.
  rewrite (truediv_Ok _ _ (py_len_nonzero values Hvalues)), bind_Ok.
  set (mean := py_sum values / py_len values).
  destruct (Qeq_bool mean 0) eqn:Hmean; [eexists; split; [done|lra]|].
  apply Qeq_bool_neq, Qabs_nonzero in Hmean.
  rewrite (truediv_Ok _ _ (py_len_nonzero values Hvalues)), bind_Ok.
  rewrite (truediv_Ok _ _ Hmean), bind_Ok.
  eexists. split; [done|]. apply Qmax_clamp_unit.
Qed.

(** The scoring half never raises; its results and the six indicators
    behind the score. *)
Lemma assess_Ok self physical :
  ∃ sync_accuracy anomalies integration consistency score,
    _compute_sync_accuracy self physical = Ok sync_accuracy ∧
    _detect_anomalies self physical = Ok anomalies ∧
    _sensor_integration physical = Ok integration ∧
    _behavioral_consistency self = Ok consistency ∧
    score == (sync_accuracy + Qmin 1.0 (py_len (twin_history self) / 10) + integration
              + confidence (length (physical_history self))
              + _attention_focus physical + consistency) / 6 ∧
    assess self physical =
      Ok (sync_accuracy, confidence (length (physical_history self)), anomalies, score).
Proof.
  destruct (compute_sync_accuracy_unit self physical) as (sa & Hsa & _).
  destruct (detect_anomalies_Ok self physical) as (an & Han).
  destruct (sensor_integration_unit physical) as (si & Hsi & _).
  destruct (behavioral_consistency_unit self) as (bc & Hbc & _).
  set (indicators := [sa; Qmin 1.0 (py_len (twin_history self) / 10); si;
                      confidence (length (physical_history self));
                      _attention_focus physical; bc]).
  exists sa, an, si, bc, (py_sum indicators / py_len indicators).
  repeat split; try done.
  - unfold indicators, py_sum, py_len. simpl. unfold Qdiv.
    change (inject_Z (Z.of_nat 6)) with 6. ring.
  - unfold assess. rewrite Hsa, evaluate_predictions_Ok, Han, Hsi, Hbc.
    rewrite (truediv_Ok _ 10), !bind_Ok by done.
    fold indicators. rewrite (truediv_Ok _ (py_len indicators)); [done|].
    by apply py_len_nonzero; simpl; lia.
Qed.
End Engine_facts.

(** ** One call and a run of calls *)

Section Sync_facts.
Context `{PyRuntime}.

Lemma sync_of_assess self physical sync_accuracy prediction_accuracy anomalies score predicted :
  assess (append_physical self physical) physical
    = Ok (sync_accuracy, prediction_accuracy, anomalies, score) →
  predicted_sensors (append_physical self physical) physical = Ok predicted →
  let twin_state :=
    twin_state_of (self_twin_id self) (timestamp physical)
                  sync_accuracy prediction_accuracy anomalies score in
  sync self physical = Ok (after_sync self physical twin_state predicted, twin_state).
Proof.
  intros Hassess Hpredicted. unfold sync. rewrite Hassess, bind_Ok.
  unfold _make_prediction.
  change (predicted_sensors (append_proof (append_physical self physical) _) physical)
    with (predicted_sensors (append_physical self physical) physical).
  rewrite Hpredicted, bind_Ok. reflexivity.
Qed.

(** [sync] never raises, whatever the engine holds. *)
Lemma sync_Ok self physical :
  ∃ sync_accuracy anomalies score predicted,
    assess (append_physical self physical) physical
      = Ok (sync_accuracy, confidence (S (length (physical_history self))),
            anomalies, score) ∧
    sync self physical =
      let twin_state :=
        twin_state_of (self_twin_id self) (timestamp physical) sync_accuracy
          (confidence (S (length (physical_history self)))) anomalies score in
      Ok (after_sync self physical twin_state predicted, twin_state).
Proof.
  destruct (assess_Ok (append_physical self physical) physical)
    as (sa & an & si & bc & score & _ & _ & _ & _ & _ & Hassess).
  destruct (predicted_sensors_Ok (append_physical self physical) physical)
    as (predicted & Hpredicted).
  simpl in Hassess. rewrite length_app, Nat.add_1_r in Hassess.
  exists sa, an, score, predicted. split; [done|].
  by apply sync_of_assess.
Qed.

Lemma sync_all_cons self physical rest :
  sync_all self (physical :: rest) =
    '(self', twin_state) ← sync self physical;
    '(self'', results) ← sync_all self' rest;
    Ok (self'', twin_state :: results).
Proof. reflexivity. Qed.

(** A run never raises and appends one entry per call to each history. *)
Lemma sync_all_Ok self snapshots :
  ∃ self' results,
    sync_all self snapshots = Ok (self', results) ∧
    length results = length snapshots ∧
    self_twin_id self' = self_twin_id self ∧
    self_device_id self' = self_device_id self ∧
    physical_history self' = physical_history self ++ snapshots ∧
    twin_history self' = twin_history self ++ results ∧
    proof_chain self' = proof_chain self ++ (proof_hash <$> results) ∧
    length (predictions self') = (length (predictions self) + length snapshots)%nat.
Proof.
  revert self. induction snapshots as [|physical rest IH]; intros self.
  - exists self, []. simpl. rewrite !app_nil_r, Nat.add_0_r. done.
  - destruct (sync_Ok self physical) as (sa & an & score & predicted & _ & Hsync).
    simpl in Hsync. rewrite sync_all_cons, Hsync, bind_Ok.
    match goal with |- context [sync_all ?e rest] =>
      destruct (IH e) as (self' & results & -> & Hlen & Hid & Hdev & Hphys & Htwin & Hproof & Hpred)
    end.
    rewrite bind_Ok. eexists _, (_ :: _). split; [done|].
    simpl in *. rewrite Hlen, Hid, Hdev, Hphys, Htwin, Hproof, Hpred, <- !app_assoc.
    rewrite length_app. simpl. repeat split; try done. lia.
Qed.

Lemma sync_all_app self snapshots more :
  sync_all self (snapshots ++ more) =
    '(self', results) ← sync_all self snapshots;
    '(self'', results') ← sync_all self' more;
    Ok (self'', results ++ results').
Proof.
  revert self. induction snapshots as [|physical rest IH]; intros self.
  - simpl. by destruct (sync_all self more) as [[??]|].
  - simpl app. rewrite !sync_all_cons.
    destruct (sync self physical) as [[self1 t]|]; [|done].
    rewrite !bind_Ok, IH.
    destruct (sync_all self1 rest) as [[self2 ts]|]; [|done].
    rewrite !bind_Ok.
    by destruct (sync_all self2 more) as [[??]|].
Qed.

(** The device identifier plays no part in a call. *)
Lemma sync_with_device device_id self physical :
  sync (with_device device_id self) physical =
    '(self', twin_state) ← sync self physical;
    Ok (with_device device_id self', twin_state).
Proof.
  destruct (assess_Ok (append_physical self physical) physical)
    as (sa & an & si & bc & score & _ & _ & _ & _ & _ & Hassess).
  destruct (predicted_sensors_Ok (append_physical self physical) physical)
    as (predicted & Hpredicted).
  rewrite (sync_of_assess self physical _ _ _ _ _ Hassess Hpredicted), bind_Ok.
  exact (sync_of_assess (with_device device_id self) physical _ _ _ _ _ Hassess Hpredicted).
Qed.

Lemma sync_all_with_device device_id self snapshots :
  sync_all (with_device device_id self) snapshots =
    '(self', results) ← sync_all self snapshots;
    Ok (with_device device_id self', results).
Proof.
  revert self. induction snapshots as [|physical rest IH]; intros self; [done|].
  rewrite !sync_all_cons, sync_with_device.
  destruct (sync self physical) as [[self1 t]|]; [|done].
  rewrite !bind_Ok, IH.
  by destruct (sync_all self1 rest) as [[??]|].
Qed.
End Sync_facts.

(** ** The labels *)

Lemma level_of_score_tiers score :
  (0.85 <= score → level_of_score score = "C-4 Transcendent") ∧
  (0.70 <= score < 0.85 → level_of_score score = "C-3 Autonomous") ∧
  (0.50 <= score < 0.70 → level_of_score score = "C-2 Emerging") ∧
  (0.20 <= score < 0.50 → level_of_score score = "C-1 Functional") ∧
  (score < 0.20 → level_of_score score = "C-0 Reactive").
Proof.
  unfold level_of_score.
  destruct (Qle_bool 0.85 score) eqn:E4; [apply Qle_bool_iff in E4|apply not_true_iff_false in E4; rewrite Qle_bool_iff in E4];
  (destruct (Qle_bool 0.70 score) eqn:E3; [apply Qle_bool_iff in E3|apply not_true_iff_false in E3; rewrite Qle_bool_iff in E3]);
  (destruct (Qle_bool 0.50 score) eqn:E2; [apply Qle_bool_iff in E2|apply not_true_iff_false in E2; rewrite Qle_bool_iff in E2]);
  (destruct (Qle_bool 0.20 score) eqn:E1; [apply Qle_bool_iff in E1|apply not_true_iff_false in E1; rewrite Qle_bool_iff in E1]);
  repeat split; intros; try done; exfalso; lra.
Qed.

#[global] Instance level_of_score_comp : Proper (Qeq ==> eq) level_of_score.
Proof.
  intros x y Hxy. unfold level_of_score.
  assert (∀ c, Qle_bool c x = Qle_bool c y) as E.
  { intros c. apply eq_true_iff_eq. rewrite !Qle_bool_iff. by rewrite Hxy. }
  by rewrite !E.
Qed.

Section Run_facts.
Context `{PyRuntime}.

(** The [i]-th result of a run. *)
Lemma sync_all_lookup self snapshots self' results i twin_state :
  sync_all self snapshots = Ok (self', results) →
  results !! i = Some twin_state →
  ∃ physical sync_accuracy anomalies score,
    snapshots !! i = Some physical ∧
    twin_state =
      twin_state_of (self_twin_id self) (timestamp physical) sync_accuracy
        (confidence (length (physical_history self) + i + 1)) anomalies score.
Proof.
  revert self results i. induction snapshots as [|physical rest IH];
    intros self results i Hrun Hi.
  - simpl in Hrun. by simplify_eq.
  - rewrite sync_all_cons in Hrun.
    destruct (sync_Ok self physical) as (sa & an & score & predicted & _ & Hsync).
    simpl in Hsync. rewrite Hsync, bind_Ok in Hrun.
    match type of Hrun with context [sync_all ?e rest] =>
      destruct (sync_all e rest) as [[self2 results2]|] eqn:Hrest; [|done]
    end.
    rewrite bind_Ok in Hrun. simplify_eq.
    destruct i as [|i]; simpl in Hi.
    + simplify_eq. exists physical, sa, an, score. split; [done|].
      by rewrite Nat.add_0_r, Nat.add_1_r.
    + destruct (IH _ _ _ Hrest Hi) as (p & sa' & an' & score' & Hp & ->).
      exists p, sa', an', score'. split; [done|]. simpl.
      rewrite length_app. simpl. do 2 f_equal. lia.
Qed.
End Run_facts.

(** ** The reference runtime on known values *)

Example sha256_abc :
  SHA256.hexdigest "abc"
    = "ba7816bf8f01cfea414140de5dae2223b00361a396177a9cb410ff61f20015ad".
Proof. vm_compute. reflexivity. Qed.

Example sha256_empty :
  SHA256.hexdigest EmptyString
    = "e3b0c44298fc1c149afbf4c8996fb92427ae41e4649b934ca495991b7852b855".
Proof. vm_compute. reflexivity. Qed.

Example repr_float_values :
  JSON.repr_float (py_round (26 # 60) 6) = "0.433333" ∧
  JSON.repr_float (py_round 1 6) = "1.0" ∧
  JSON.repr_float (py_round 0.0000124 6) = "1.2e-05" ∧
  JSON.repr_float (py_round (-16.45) 6) = "-16.45".
Proof. repeat split; vm_compute; reflexivity. Qed.

(** The first call of the specification's example: the record that is
    hashed has the score 0.433333, and the digest is the one [hashlib]
    gives for its serialisation. *)
Example first_call_of_T1 :
  ∃ self' twin_state,
    sync (H := reference_runtime) twin_T1 steady = Ok (self', twin_state) ∧
    self' = after_first ∧
    sync_accuracy twin_state == 0.5 ∧
    anomalies_detected twin_state = 0%Z ∧
    consciousness_level twin_state = "C-1 Functional" ∧
    proof_hash twin_state
      = "baa26d60e325001e622253d2488178bfed9c3ea10f307daf3a0eef0ea6e0ab17".
Proof.
  eexists _, _. split; [vm_compute; reflexivity|].
  repeat split; vm_compute; reflexivity.
Qed.

(** ** The binary64 engine *)

Section Float_facts.
Local Open Scope float_scope.

Lemma float_ltb_leb (x y : float) : (x <? y) = true → (x <=? y) = true.
Proof.
  rewrite ltb_spec, leb_spec. unfold SFltb, SFleb.
  by destruct (SFcompare (Prim2SF x) (Prim2SF y)) as [[]|].
Qed.

Lemma float_sub_diag (x : float) :
  Prim2SF (x - x) = S754_zero false ∨ Prim2SF (x - x) = S754_nan.
Proof.
  rewrite sub_spec. unfold SF64sub, SFsub.
  destruct (Prim2SF x) as [[]|[]| |s m e]; auto.
  left. cbv zeta. rewrite Z.sub_diag. reflexivity.
Qed.

(** A reading compared with itself never counts as moved, whatever it
    is: the difference is 0.0, or NaN for an infinite or NaN reading. *)
Lemma float_unchanged (x : float) : (0.5 <? abs (x - x)) = false.
Proof.
  rewrite ltb_spec, abs_spec. unfold SFltb.
  by destruct (float_sub_diag x) as [-> | ->].
Qed.

Lemma float_abs_eqb_zero (x : float) : (abs x =? 0) = (x =? 0).
Proof.
  rewrite !FloatAxioms.eqb_spec, abs_spec. unfold SFeqb.
  by destruct (Prim2SF x) as [[]|[]| |[] m e].
Qed.

(** [max(0, x)] is 0 or a positive number, never NaN. *)
Lemma py_max_zero (x : float) : (0 <=? Binary64.py_max 0 x) = true.
Proof.
  unfold Binary64.py_max. destruct (0 <? x) eqn:E.
  - by apply float_ltb_leb.
  - reflexivity.
Qed.
End Float_facts.

Section Binary64_calls.
Import Binary64.
Context `{Runtime}.
Local Open Scope float_scope.

Lemma bind_Raise {A B} (e : exn) (f : A → result B) : Raise e ≫= f = Raise e.
Proof. reflexivity. Qed.

Lemma b64_getitem_contains {V} key (d : list (string * V)) :
  contains key d = true → ∃ v, dict_get d key = Some v ∧ getitem d key = Ok v.
Proof.
  unfold contains, getitem. intros [v Hv]%bool_decide_eq_true. exists v. by rewrite Hv.
Qed.

Lemma b64_dict_get_elem {V} (d : list (string * V)) key v :
  (key, v) ∈ d → is_Some (dict_get d key).
Proof.
  induction d as [|[k w] d IH]; intros Hin; [by apply elem_of_nil in Hin|].
  simpl. destruct (decide (k = key)); [by eexists|].
  apply elem_of_cons in Hin as [[= -> ->]|Hin]; [done|by apply IH].
Qed.

(** With distinct keys, [d[key]] is the value of the item. *)
Lemma b64_dict_get_NoDup {V} (d : list (string * V)) key v :
  NoDup d.*1 → (key, v) ∈ d → dict_get d key = Some v.
Proof.
  induction d as [|[k w] d IH]; intros Hnodup Hin; [by apply elem_of_nil in Hin|].
  apply NoDup_cons in Hnodup as [Hk Hnodup]. simpl.
  apply elem_of_cons in Hin as [[= -> ->]|Hin].
  - by rewrite decide_True.
  - rewrite decide_False; [by apply IH|].
    intros ->. apply Hk. apply list_elem_of_fmap. by exists (key, v).
Qed.

Lemma b64_accuracy_errors_Ok predicted actual :
  ∃ errors, accuracy_errors predicted actual = Ok errors.
Proof.
  induction predicted as [|[key pred_val] rest [errors IH]]; [by eexists|].
  simpl. destruct (contains key actual) eqn:Hkey; [|by eexists].
  destruct (b64_getitem_contains _ _ Hkey) as (reading & _ & ->).
  rewrite IH. by eexists.
Qed.

Lemma b64_truediv_int_Ok a n : n ≠ 0%Z → truediv_int a n = Ok (a / of_Z n).
Proof. intros Hn. unfold truediv_int. by rewrite (proj2 (Z.eqb_neq n 0) Hn). Qed.

Lemma b64_int_truediv_Ok m n : n ≠ 0%Z → int_truediv m n = Ok (of_Z m / of_Z n).
Proof. intros Hn. unfold int_truediv. by rewrite (proj2 (Z.eqb_neq n 0) Hn). Qed.

Lemma b64_compute_sync_accuracy_Ok self physical :
  ∃ accuracy, _compute_sync_accuracy self physical = Ok accuracy.
Proof.
  unfold _compute_sync_accuracy.
  destruct (predictions self) as [|p ps] eqn:E; [by eexists|].
  destruct (index_from_end_Ok (p :: ps) 1) as (last_pred & -> & _); [simpl; lia|].
  cbn [mbind result_bind].
  destruct (b64_accuracy_errors_Ok (default [] (dict_get last_pred "sensors"))
              (sensors physical)) as [errors ->].
  cbn [mbind result_bind]. rewrite b64_truediv_int_Ok by (unfold py_len; lia). by eexists.
Qed.

Lemma b64_evaluate_predictions_Ok self physical :
  ∃ confidence, _evaluate_predictions self physical = Ok confidence.
Proof.
  unfold _evaluate_predictions. case_decide; [by eexists|].
  rewrite b64_int_truediv_Ok by lia. by eexists.
Qed.

(** The counting loop: every key it meets is a key of the snapshot, so
    that no lookup fails. *)
Lemma b64_count_anomalies_Ok prev current keys anomalies :
  (∀ key, key ∈ keys → is_Some (dict_get current key)) →
  ∃ count, count_anomalies prev current keys anomalies = Ok count.
Proof.
  revert anomalies. induction keys as [|key rest IH]; intros anomalies Hkeys; [by eexists|].
  simpl. destruct (contains key prev) eqn:Hprev.
  - destruct (b64_getitem_contains _ _ Hprev) as (old & _ & ->).
    destruct (Hkeys key) as [reading Hreading]; [by left|].
    unfold getitem at 1. rewrite Hreading. cbn [mbind result_bind].
    apply IH. intros k Hk. apply Hkeys. by right.
  - apply IH. intros k Hk. apply Hkeys. by right.
Qed.

Lemma b64_keys_present {V} (d : list (string * V)) key :
  key ∈ d.*1 → is_Some (dict_get d key).
Proof.
  intros ([k v] & -> & Hin)%list_elem_of_fmap. by apply (b64_dict_get_elem _ _ v).
Qed.

Lemma b64_detect_anomalies_Ok self physical :
  ∃ anomalies, _detect_anomalies self physical = Ok anomalies.
Proof.
  unfold _detect_anomalies. case_decide; [by eexists|].
  destruct (index_from_end_Ok (physical_history self) 2) as (prev & -> & _); [lia|].
  cbn [mbind result_bind]. apply b64_count_anomalies_Ok, b64_keys_present.
Qed.

Lemma b64_predicted_sensors_Ok self items :
  ∃ predicted, predicted_sensors self items = Ok predicted ∧ predicted.*1 = items.*1.
Proof.
  induction items as [|[key val] rest (others & IH & Hkeys)]; [by eexists|].
  simpl. case_decide as Hlen.
  - destruct (index_from_end_Ok (physical_history self) 2) as (prev & -> & _); [lia|].
    cbn [mbind result_bind]. rewrite IH. cbn [mbind result_bind].
    eexists. split; [done|]. by rewrite !fmap_cons, Hkeys.
  - cbn [mbind result_bind]. rewrite IH. cbn [mbind result_bind].
    eexists. split; [done|]. by rewrite !fmap_cons, Hkeys.
Qed.

(** The only exception of a list of squares is the overflow of one of
    them. *)
Lemma b64_squares_raise (mean : float) (values : list float) e :
  mapM (λ v, pow2 (v - mean)) values = Raise e → e = OverflowError.
Proof.
  induction values as [|v rest IH]; [done|]. simpl.
  destruct (pow2 (v - mean)) as [square|e'] eqn:Hsquare.
  - rewrite bind_Ok. destruct (mapM _ rest) as [squares|e''] eqn:E.
    + by rewrite bind_Ok.
    + rewrite bind_Raise. intros [= <-]. by apply IH.
  - rewrite bind_Raise. intros [= <-]. unfold pow2 in Hsquare.
    by destruct (is_finite _ && is_infinity _); simplify_eq.
Qed.

Lemma b64_sensor_integration_raise physical e :
  _sensor_integration physical = Raise e → e = OverflowError.
Proof.
  unfold _sensor_integration. destruct (sensors physical) as [|item items] eqn:E; [done|].
  case_decide as Hlen; [done|].
  rewrite b64_truediv_int_Ok by (unfold py_len; simpl; lia). cbn [mbind result_bind].
  destruct (_ =? 0) eqn:Hmean; [done|].
  destruct (mapM _ _) as [squares|e'] eqn:Hsq; cbn [mbind result_bind].
  - rewrite b64_truediv_int_Ok by (unfold py_len; simpl; lia). cbn [mbind result_bind].
    unfold truediv. rewrite float_abs_eqb_zero, Hmean. done.
  - intros [= <-]. by apply b64_squares_raise in Hsq.
Qed.

Lemma b64_behavioral_consistency_raise self e :
  _behavioral_consistency self = Raise e → e = OverflowError.
Proof.
  unfold _behavioral_consistency. case_decide as Hlen; [done|].
  assert (py_len (consciousness_score <$> slice_last 5 (twin_history self)) ≠ 0%Z) as Hn.
  { unfold py_len. rewrite length_fmap, length_slice_last. lia. }
  rewrite b64_truediv_int_Ok by done. cbn [mbind result_bind].
  destruct (mapM _ _) as [squares|e'] eqn:Hsq; cbn [mbind result_bind].
  - rewrite b64_truediv_int_Ok by done. done.
  - intros [= <-]. by apply b64_squares_raise in Hsq.
Qed.
End Binary64_calls.

Section Binary64_sync.
Import Binary64.
Context `{Runtime}.
Local Open Scope float_scope.

(** [assess] returns unless a square overflows in [_sensor_integration]
    or in [_behavioral_consistency]. *)
Lemma b64_assess_cases self physical :
  (∃ sync_accuracy prediction_accuracy anomalies integration consistency score,
     _compute_sync_accuracy self physical = Ok sync_accuracy ∧
     _evaluate_predictions self physical = Ok prediction_accuracy ∧
     _detect_anomalies self physical = Ok anomalies ∧
     _sensor_integration physical = Ok integration ∧
     _behavioral_consistency self = Ok consistency ∧
     assess self physical = Ok (sync_accuracy, prediction_accuracy, anomalies, score))
  ∨ (assess self physical = Raise OverflowError ∧
     (_sensor_integration physical = Raise OverflowError ∨
      _behavioral_consistency self = Raise OverflowError)).
Proof.
  unfold assess.
  destruct (b64_compute_sync_accuracy_Ok self physical) as [sa Hsa].
  destruct (b64_evaluate_predictions_Ok self physical) as [pa Hpa].
  destruct (b64_detect_anomalies_Ok self physical) as [an Han].
  rewrite Hsa, Hpa, Han, !bind_Ok, b64_int_truediv_Ok, bind_Ok by lia.
  destruct (_sensor_integration physical) as [si|e] eqn:Hsi.
  - rewrite bind_Ok.
    destruct (_behavioral_consistency self) as [bc|e] eqn:Hbc.
    + rewrite bind_Ok, b64_truediv_int_Ok, bind_Ok by (unfold py_len; simpl; lia).
      left. by eexists sa, pa, an, si, bc, _.
    + rewrite (b64_behavioral_consistency_raise _ _ Hbc). right. split; [done|by right].
  - rewrite (b64_sensor_integration_raise _ _ Hsi). right. split; [done|by left].
Qed.

(** One call: it returns and appends to the four histories, or it raises
    [OverflowError] and has appended the snapshot only. *)
Lemma b64_sync_cases self physical :
  (∃ sync_accuracy prediction_accuracy anomalies score predicted,
     let twin_state :=
       twin_state_of (self_twin_id self) (timestamp physical)
                     sync_accuracy prediction_accuracy anomalies score in
     assess (append_physical self physical) physical
       = Ok (sync_accuracy, prediction_accuracy, anomalies, score) ∧
     predicted.*1 = (sensors physical).*1 ∧
     sync self physical = (after_sync self physical twin_state predicted, Ok twin_state))
  ∨ (assess (append_physical self physical) physical = Raise OverflowError ∧
     sync self physical = (append_physical self physical, Raise OverflowError)).
Proof.
  unfold sync.
  destruct (b64_assess_cases (append_physical self physical) physical)
    as [(sa & pa & an & si & bc & score & _ & _ & _ & _ & _ & ->)|[-> _]]; [|by right].
  left. exists sa, pa, an, score.
  match goal with
  | |- context [_make_prediction ?self1 physical] =>
      destruct (b64_predicted_sensors_Ok self1 (sensors physical))
        as (predicted & Hpredicted & Hkeys)
  end.
  exists predicted. unfold _make_prediction. rewrite Hpredicted, bind_Ok.
  split; [done|]. split; [done|]. reflexivity.
Qed.

(** A run of calls: every snapshot is appended, and each call that
    returns appends its record, its hash and one prediction. *)
Lemma b64_sync_all_effect self snapshots :
  ∃ self' outcomes new_predictions,
    sync_all self snapshots = (self', outcomes) ∧
    self_twin_id self' = self_twin_id self ∧
    self_device_id self' = self_device_id self ∧
    physical_history self' = physical_history self ++ snapshots ∧
    twin_history self' = twin_history self ++ returned outcomes ∧
    proof_chain self' = proof_chain self ++ (proof_hash <$> returned outcomes) ∧
    predictions self' = predictions self ++ new_predictions ∧
    length new_predictions = length (returned outcomes) ∧
    length outcomes = length snapshots ∧
    Forall (λ outcome, ∀ e, outcome = Raise e → e = OverflowError) outcomes ∧
    Forall (λ twin_state, twin_id twin_state = self_twin_id self) (returned outcomes).
Proof.
  revert self. induction snapshots as [|physical rest IH]; intros self.
  - exists self, [], []. simpl. rewrite !app_nil_r. repeat split; constructor.
  - simpl.
    destruct (b64_sync_cases self physical)
      as [(sa & pa & an & score & predicted & _ & _ & ->)|[_ ->]].
    + match goal with
      | |- context [sync_all ?self1 rest] =>
          destruct (IH self1)
            as (self' & outcomes & new & -> & Hid & Hdev & Hphys & Htwin & Hproof
                & Hpred & Hnew & Hlen & Hexn & Hids)
      end.
      eexists self', (Ok _ :: outcomes), (_ :: new).
      split; [reflexivity|]. simpl in *.
      rewrite Hid, Hdev, Hphys, Htwin, Hproof, Hpred, Hnew, Hlen, <- !app_assoc.
      repeat split; constructor; done.
    + destruct (IH (append_physical self physical))
        as (self' & outcomes & new & -> & Hid & Hdev & Hphys & Htwin & Hproof
            & Hpred & Hnew & Hlen & Hexn & Hids).
      exists self', (Raise OverflowError :: outcomes), new.
      split; [reflexivity|]. simpl in *.
      rewrite Hid, Hdev, Hphys, Htwin, Hproof, Hpred, Hnew, Hlen, <- !app_assoc.
      repeat split; [constructor; [congruence|done]|done].
Qed.
End Binary64_sync.

Lemma b64_returned_length_le outcomes :
  (length (Binary64.returned outcomes) ≤ length outcomes)%nat.
Proof.
  induction outcomes as [|[twin_state|e] rest IH]; simpl; lia.
Qed.

(** Every call returned exactly when as many records were returned as
    calls were made. *)
Lemma b64_returned_all outcomes :
  length (Binary64.returned outcomes) = length outcomes ↔
  Forall (λ outcome, ∃ twin_state, outcome = Ok twin_state) outcomes.
Proof.
  induction outcomes as [|[twin_state|e] rest IH].
  - split; [constructor|done].
  - simpl. rewrite Forall_cons. split.
    + intros Hlen. split; [by eexists|]. apply IH. lia.
    + intros [_ Hrest]. f_equal. by apply IH.
  - simpl. pose proof (b64_returned_length_le rest). split; [lia|].
    by intros [[? [=]] _]%Forall_cons.
Qed.

Section Binary64_anomalies.
Import Binary64.
Local Open Scope float_scope.

Lemma b64_anomalous_spec prev key v :
  anomalous prev (key, v) = true ↔
  ∃ old, dict_get prev key = Some old ∧ (0.5 <? abs (v - old)) = true.
Proof.
  unfold anomalous. cbn [fst snd]. destruct (dict_get prev key) as [old|].
  - split; [by exists old|by intros (? & [= <-] & ?)].
  - split; [done|by intros (? & [=] & _)].
Qed.

(** The counting loop counts the anomalous items among those left. *)
Lemma b64_count_anomalies_filter prev current items anomalies :
  (∀ key v, (key, v) ∈ items → dict_get current key = Some v) →
  count_anomalies prev current items.*1 anomalies
    = Ok (anomalies + length (filter (λ reading, anomalous prev reading = true) items))%nat.
Proof.
  revert anomalies. induction items as [|[key v] rest IH]; intros anomalies Hitems.
  - simpl. by rewrite Nat.add_0_r.
  - assert (∀ k w, (k, w) ∈ rest → dict_get current k = Some w) as Hrest
      by (intros k w Hin; apply Hitems; by right).
    rewrite fmap_cons, filter_cons. cbn [fst count_anomalies].
    unfold contains, getitem. rewrite (Hitems key v) by (by left).
    pose proof (eq_refl (anomalous prev (key, v))) as Hanomalous.
    unfold anomalous at 2 in Hanomalous. cbn [fst snd] in Hanomalous.
    destruct (dict_get prev key) as [old|] eqn:Hold.
    + rewrite bool_decide_eq_true_2 by done. rewrite !bind_Ok.
      rewrite IH by done. rewrite Hanomalous. destruct (0.5 <? abs (v - old)).
      * rewrite decide_True by done. simpl. f_equal. lia.
      * rewrite decide_False by done. done.
    + rewrite bool_decide_eq_false_2 by (by intros [? ?]).
      rewrite IH by done. rewrite Hanomalous, decide_False by done. done.
Qed.

Lemma b64_detect_anomalies_first self physical :
  physical_history self = [] →
  _detect_anomalies (append_physical self physical) physical = Ok 0%nat.
Proof.
  intros Hnone. unfold _detect_anomalies. simpl. rewrite Hnone. reflexivity.
Qed.

Lemma b64_detect_anomalies_later self physical hist prev :
  physical_history self = hist ++ [prev] →
  NoDup (sensors physical).*1 →
  _detect_anomalies (append_physical self physical) physical
    = Ok (anomalous_keys (sensors prev) (sensors physical)).
Proof.
  intros Hprev Hnodup. unfold _detect_anomalies. simpl. rewrite Hprev, !length_app. simpl.
  rewrite decide_False by lia.
  rewrite <- app_assoc. simpl. rewrite index_from_end_prev, bind_Ok.
  rewrite b64_count_anomalies_filter; [done|].
  intros key v Hin. by apply b64_dict_get_NoDup.
Qed.

(** A reading that did not move is not anomalous. *)
Lemma b64_unchanged_not_anomalous prev key old :
  dict_get prev key = Some old → anomalous prev (key, old) = false.
Proof. intros Hold. unfold anomalous. cbn [fst snd]. rewrite Hold. apply float_unchanged. Qed.

Lemma b64_anomalous_keys_app prev l1 l2 :
  anomalous_keys prev (l1 ++ l2) = (anomalous_keys prev l1 + anomalous_keys prev l2)%nat.
Proof. unfold anomalous_keys. by rewrite filter_app, length_app. Qed.

(** A list of squares raises exactly when one of them overflows. *)
Lemma b64_squares_raise_iff (mean : float) (values : list float) :
  raises (mapM (λ v, pow2 (v - mean)) values) ↔
  Exists (λ v, is_finite (v - mean) && is_infinity ((v - mean) * (v - mean)) = true) values.
Proof.
  induction values as [|v rest IH].
  - split; [by intros [e [=]]|by intros ?%Exists_nil].
  - simpl. rewrite Exists_cons.
    assert (pow2 (v - mean)
            = if is_finite (v - mean) && is_infinity ((v - mean) * (v - mean))
              then Raise OverflowError else Ok ((v - mean) * (v - mean))) as ->
      by reflexivity.
    destruct (is_finite (v - mean) && is_infinity ((v - mean) * (v - mean))).
    + rewrite bind_Raise. split; [by left|by eexists].
    + rewrite bind_Ok. split.
      * intros [e He]. right. apply IH.
        destruct (mapM _ rest) as [squares|e'] eqn:E; [by rewrite bind_Ok in He|by eexists].
      * intros [?|[e He]%IH]; [done|]. rewrite He, bind_Raise. by eexists.
Qed.
End Binary64_anomalies.

Section Binary64_anomalous_keys.
Import Binary64.
Local Open Scope float_scope.

Lemma b64_anomalous_keys_cons prev reading rest :
  anomalous_keys prev (reading :: rest)
    = ((if anomalous prev reading then 1 else 0) + anomalous_keys prev rest)%nat.
Proof.
  unfold anomalous_keys. rewrite filter_cons.
  destruct (anomalous prev reading).
  - by rewrite decide_True.
  - by rewrite decide_False.
Qed.

Lemma b64_anomalous_keys_unchanged prev current :
  (∀ key old new, dict_get prev key = Some old → (key, new) ∈ current → new = old) →
  anomalous_keys prev current = 0%nat.
Proof.
  induction current as [|[key new] rest IH]; intros Hsame; [done|].
  rewrite b64_anomalous_keys_cons, IH by (intros k o n Ho Hin; apply (Hsame k); [done|by right]).
  unfold anomalous. cbn [fst snd].
  destruct (dict_get prev key) as [old|] eqn:Hold; [|done].
  rewrite (Hsame key old new Hold) by (by left). by rewrite float_unchanged.
Qed.
End Binary64_anomalous_keys.

Section Binary64_overflow.
Import Binary64.
Context `{Runtime}.
Local Open Scope float_scope.

(** [_behavioral_consistency] raises exactly when, with three records or
    more, the square of the deviation of one of the last five scores
    from their mean leaves the range of a double. *)
Lemma b64_behavioral_consistency_raises self :
  let recent := consciousness_score <$> slice_last 5 (twin_history self) in
  let mean := py_sum recent / of_Z (py_len recent) in
  raises (_behavioral_consistency self) ↔
  (3 ≤ length (twin_history self))%nat ∧
  Exists (λ s, is_finite (s - mean) && is_infinity ((s - mean) * (s - mean)) = true) recent.
Proof.
  intros recent mean. unfold _behavioral_consistency. case_decide as Hlen.
  - split; [by intros [e [=]]|intros [? _]; lia].
  - assert (py_len recent ≠ 0%Z) as Hn.
    { unfold py_len, recent. rewrite length_fmap, length_slice_last. lia. }
    fold recent. rewrite b64_truediv_int_Ok, bind_Ok by done. fold mean.
    rewrite <- (b64_squares_raise_iff mean recent).
    destruct (mapM _ recent) as [squares|e] eqn:Hsq.
    + rewrite bind_Ok, b64_truediv_int_Ok, bind_Ok by done.
      split; [by intros [e [=]]|by intros [_ [e [=]]]].
    + rewrite bind_Raise. split; [intros _; split; [lia|by eexists]|by eexists].
Qed.

(** [_sensor_integration] raises exactly when, with two sensors or more
    and a mean that is not zero, the square of one deviation from the
    mean leaves the range of a double. *)
Lemma b64_sensor_integration_raises physical :
  let values := (sensors physical).*2 in
  let mean := py_sum values / of_Z (py_len values) in
  raises (_sensor_integration physical) ↔
  (2 ≤ length (sensors physical))%nat ∧ (mean =? 0) = false ∧
  Exists (λ v, is_finite (v - mean) && is_infinity ((v - mean) * (v - mean)) = true) values.
Proof.
  intros values mean. unfold _sensor_integration. fold values.
  assert (length values = length (sensors physical)) as Hvalues
    by (subst values; apply length_fmap).
  destruct (sensors physical) as [|item items] eqn:E in |- *.
  - split; [by intros [e [=]]|simpl; intros [? _]; lia].
  - rewrite <- E.
    rewrite Hvalues. case_decide as Hlen.
    + split; [by intros [e [=]]|intros [? _]; lia].
    + assert (py_len values ≠ 0%Z) as Hn by (unfold py_len; lia).
      rewrite b64_truediv_int_Ok, bind_Ok by done. fold mean.
      destruct (mean =? 0) eqn:Hmean.
      * split; [by intros [e [=]]|by intros (_ & [=] & _)].
      * rewrite <- (b64_squares_raise_iff mean values).
        destruct (mapM _ values) as [squares|e] eqn:Hsq.
        -- rewrite bind_Ok, b64_truediv_int_Ok, bind_Ok by done.
           unfold truediv. rewrite float_abs_eqb_zero, Hmean, bind_Ok.
           split; [by intros [e [=]]|by intros (_ & _ & [e [=]])].
        -- rewrite bind_Raise.
           split; [intros _; split; [lia|split; [done|by eexists]]|by eexists].
Qed.

(** A call returns exactly when neither indicator overflows. *)
Lemma b64_sync_returns self physical :
  (∃ self' twin_state, sync self physical = (self', Ok twin_state)) ↔
  ¬ raises (_sensor_integration physical) ∧ ¬ raises (_behavioral_consistency self).
Proof.
  destruct (b64_sync_cases self physical)
    as [(sa & pa & an & score & predicted & Hassess & _ & Hsync)|[Hassess Hsync]];
    destruct (b64_assess_cases (append_physical self physical) physical)
      as [(sa' & pa' & an' & si & bc & score' & _ & _ & _ & Hsi & Hbc & Hassess')
         |[Hassess' Hraise]]; try congruence.
  - change (_behavioral_consistency (append_physical self physical))
      with (_behavioral_consistency self) in Hbc.
    split; [|by eexists _, _].
    intros _. rewrite Hsi, Hbc. split; by intros [e [=]].
  - change (_behavioral_consistency (append_physical self physical))
      with (_behavioral_consistency self) in Hraise.
    split.
    + intros (self' & twin_state & Hsync'). congruence.
    + intros [Hsi Hbc]. destruct Hraise as [Hraise|Hraise].
      * destruct Hsi. by eexists.
      * destruct Hbc. by eexists.
Qed.
End Binary64_overflow.

(** * The claims *)

(** C1, as stated, fails: [min(1.0, health)] bounds the attention
    indicator from above only, so a snapshot with [health = -2] on a new
    engine is scored [(0.5 + 0 + 0.3 + 0.3 - 2 + 0.5) / 6 < 0]. *)
Lemma C1_negative_health_counterexample :
  ∃ self' twin_state,
    sync (H := reference_runtime) twin_T1 unhealthy = Ok (self', twin_state) ∧
    consciousness_score twin_state == -0.0667 ∧
    ¬ (0 <= consciousness_score twin_state <= 1).
Proof.
  eexists _, _. split; [vm_compute; reflexivity|].
  split; [vm_compute; reflexivity|].
  intros [Hge _]. revert Hge. vm_compute. intros Hge. by apply Hge.
Qed.

(** C1 (amended): for every [sync] call on any engine state and any
    snapshot, the returned [TwinState] has [sync_accuracy] and
    [prediction_accuracy] in [0,1] and [consciousness_score] at most 1;
    when the snapshot's [health] is not negative (values above 1
    included), [consciousness_score] is in [0,1]. *)
Theorem C1_scores_in_unit_interval `{PyRuntime} self physical :
  ∃ self' twin_state,
    sync self physical = Ok (self', twin_state) ∧
    0 <= sync_accuracy twin_state <= 1 ∧
    0 <= prediction_accuracy twin_state <= 1 ∧
    consciousness_score twin_state <= 1 ∧
    (0 <= health physical → 0 <= consciousness_score twin_state).
Proof.
  set (self1 := append_physical self physical).
  destruct (assess_Ok self1 physical)
    as (sa & an & si & bc & score & Hsa & _ & Hsi & Hbc & Hscore & Hassess).
  destruct (predicted_sensors_Ok self1 physical) as (predicted & Hpredicted).
  rewrite (sync_of_assess _ _ _ _ _ _ _ Hassess Hpredicted).
  eexists _, _. split; [done|].
  cbn [twin_state_of sync_accuracy prediction_accuracy consciousness_score].
  destruct (compute_sync_accuracy_unit self1 physical) as (sa' & Hsa' & Hsa_unit).
  destruct (sensor_integration_unit physical) as (si' & Hsi' & Hsi_unit).
  destruct (behavioral_consistency_unit self1) as (bc' & Hbc' & Hbc_unit).
  rewrite Hsa in Hsa'. rewrite Hsi in Hsi'. rewrite Hbc in Hbc'. simplify_eq.
  pose proof (confidence_unit (length (physical_history self1))) as Hpa.
  assert (0 <= Qmin 1.0 (py_len (twin_history self1) / 10) <= 1) as Hsm.
  { apply Qmin_unit_l. apply Qle_shift_div_l; [lra|].
    pose proof (py_len_nonneg (twin_history self1)). lra. }
  pose proof (Qmin_le_1 (health physical)) as Hatt. fold (_attention_focus physical) in Hatt.
  repeat split.
  - apply py_round_nonneg; lra.
  - apply py_round_le_1; lra.
  - apply py_round_nonneg; lra.
  - apply py_round_le_1; lra.
  - apply py_round_le_1. rewrite Hscore. apply Qle_shift_div_r; lra.
  - intros Hhealth. apply py_round_nonneg. rewrite Hscore.
    assert (0 <= _attention_focus physical) by (apply Q.min_glb; lra).
    apply Qle_shift_div_l; lra.
Qed.

Lemma C1_scores_in_unit_interval_witness :
  ∃ self' twin_state,
    sync (H := reference_runtime) twin_T1 overhealthy = Ok (self', twin_state) ∧
    0 <= sync_accuracy twin_state <= 1 ∧
    0 <= prediction_accuracy twin_state <= 1 ∧
    0 <= consciousness_score twin_state <= 1.
Proof.
  destruct (C1_scores_in_unit_interval (H := reference_runtime) twin_T1 overhealthy)
    as (self' & twin_state & Hsync & Hsa & Hpa & Hle & Hge).
  exists self', twin_state. repeat split; try tauto.
  apply Hge. by compute.
Defined.

(** C2: the label [sync] returns is [level_of_score] of the composite
    score, a function of the score's value with five tiers whose lower
    bounds are inclusive; 0.85, 0.70, 0.50 and 0.20 fall in the higher
    tier, and the five labels are distinct. *)
Theorem C2_label_by_thresholds `{PyRuntime} :
  (∀ self physical, ∃ sync_accuracy prediction_accuracy anomalies score self' twin_state,
      assess (append_physical self physical) physical
        = Ok (sync_accuracy, prediction_accuracy, anomalies, score) ∧
      sync self physical = Ok (self', twin_state) ∧
      consciousness_level twin_state = level_of_score score) ∧
  (∀ score score', score == score' → level_of_score score = level_of_score score') ∧
  (∀ score,
      (0.85 <= score → level_of_score score = "C-4 Transcendent") ∧
      (0.70 <= score < 0.85 → level_of_score score = "C-3 Autonomous") ∧
      (0.50 <= score < 0.70 → level_of_score score = "C-2 Emerging") ∧
      (0.20 <= score < 0.50 → level_of_score score = "C-1 Functional") ∧
      (score < 0.20 → level_of_score score = "C-0 Reactive")) ∧
  level_of_score 0.85 = "C-4 Transcendent" ∧
  level_of_score 0.70 = "C-3 Autonomous" ∧
  level_of_score 0.50 = "C-2 Emerging" ∧
  level_of_score 0.20 = "C-1 Functional" ∧
  NoDup ["C-4 Transcendent"; "C-3 Autonomous"; "C-2 Emerging"; "C-1 Functional";
         "C-0 Reactive"].
Proof.
  split; [|split; [|split; [|repeat split]]].
  - intros self physical.
    destruct (assess_Ok (append_physical self physical) physical)
      as (sa & an & si & bc & score & _ & _ & _ & _ & _ & Hassess).
    destruct (predicted_sensors_Ok (append_physical self physical) physical)
      as (predicted & Hpredicted).
    eexists sa, _, an, score, _, _. split; [exact Hassess|].
    split; [exact (sync_of_assess _ _ _ _ _ _ _ Hassess Hpredicted)|done].
  - intros score score' E. by rewrite E.
  - apply level_of_score_tiers.
  - by apply (bool_decide_unpack _).
Qed.

Section C3_histories.
Import Binary64.

(** C3, counterexample: a call that raises has already appended its
    snapshot.  On a new engine the call with the readings [huge] raises
    [OverflowError] and leaves the lengths 1, 0, 0, 0; the next call
    returns and leaves 2, 1, 1, 1. *)
Lemma C3_aborted_call_counterexample :
  sync (H := reference_runtime) twin_T1 huge
    = (append_physical twin_T1 huge, Raise OverflowError) ∧
  length (physical_history (append_physical twin_T1 huge)) = 1%nat ∧
  length (twin_history (append_physical twin_T1 huge)) = 0%nat ∧
  length (predictions (append_physical twin_T1 huge)) = 0%nat ∧
  length (proof_chain (append_physical twin_T1 huge)) = 0%nat ∧
  ∃ self' twin_state,
    sync (H := reference_runtime) (append_physical twin_T1 huge) steady
      = (self', Ok twin_state) ∧
    length (physical_history self') = 2%nat ∧
    length (twin_history self') = 1%nat ∧
    length (predictions self') = 1%nat ∧
    length (proof_chain self') = 1%nat.
Proof.
  split; [vm_compute; reflexivity|]. repeat (split; [reflexivity|]).
  destruct (b64_sync_cases (H := reference_runtime) (append_physical twin_T1 huge) steady)
    as [(sa & pa & an & score & predicted & _ & _ & Hsync)|[Hraise _]].
  - eexists _, _. split; [exact Hsync|]. repeat split.
  - vm_compute in Hraise. discriminate Hraise.
Qed.

(** C3: on doubles, where a call can raise, after [n] calls on a new
    engine [physical_history] has length [n], and [twin_history],
    [predictions] and [proof_chain] have the length of the calls that
    returned, at most [n]; the four lengths are equal exactly when every
    call returned. *)
Theorem C3_histories_grow_together `{Runtime} twin_id device_id snapshots :
  ∃ self' outcomes,
    sync_all (__init__ twin_id device_id) snapshots = (self', outcomes) ∧
    length outcomes = length snapshots ∧
    length (physical_history self') = length snapshots ∧
    length (twin_history self') = length (returned outcomes) ∧
    length (predictions self') = length (returned outcomes) ∧
    length (proof_chain self') = length (returned outcomes) ∧
    (length (returned outcomes) ≤ length snapshots)%nat ∧
    (length (twin_history self') = length (physical_history self') ↔
     Forall (λ outcome, ∃ twin_state, outcome = Ok twin_state) outcomes).
Proof.
  destruct (b64_sync_all_effect (__init__ twin_id device_id) snapshots)
    as (self' & outcomes & new & Hrun & _ & _ & Hphys & Htwin & Hproof & Hpred
        & Hnew & Hlen & _).
  exists self', outcomes. split; [done|]. split; [done|].
  rewrite Hphys, Htwin, Hproof, Hpred. simpl. rewrite length_fmap, Hnew, <- Hlen.
  repeat split; [apply b64_returned_length_le|apply b64_returned_all|].
  intros Hall. by apply b64_returned_all.
Qed.
End C3_histories.

(** C4: two engines built with the same [twin_id] (whatever their
    [device_id]) and fed the same snapshots return the same results and
    hold the same proof chain; and the hashes of the first calls of a
    run depend on the snapshots of those calls only. *)
Theorem C4_hash_chain_deterministic `{PyRuntime} twin_id device_id device_id' :
  (∀ snapshots, ∃ self1 self2 results,
      sync_all (__init__ twin_id device_id) snapshots = Ok (self1, results) ∧
      sync_all (__init__ twin_id device_id') snapshots = Ok (self2, results) ∧
      proof_chain self1 = proof_hash <$> results ∧
      proof_chain self2 = proof_hash <$> results) ∧
  (∀ snapshots more more', ∃ self1 results1 self2 results2,
      sync_all (__init__ twin_id device_id) (snapshots ++ more) = Ok (self1, results1) ∧
      sync_all (__init__ twin_id device_id') (snapshots ++ more') = Ok (self2, results2) ∧
      take (length snapshots) (proof_hash <$> results1)
        = take (length snapshots) (proof_hash <$> results2) ∧
      take (length snapshots) (proof_chain self1)
        = take (length snapshots) (proof_chain self2)).
Proof.
  assert (∀ snapshots, ∃ self1 results,
      sync_all (__init__ twin_id device_id) snapshots = Ok (self1, results) ∧
      sync_all (__init__ twin_id device_id') snapshots
        = Ok (with_device device_id' self1, results) ∧
      length results = length snapshots ∧
      proof_chain self1 = proof_hash <$> results) as Hsame.
  { intros snapshots.
    destruct (sync_all_Ok (__init__ twin_id device_id) snapshots)
      as (self1 & results & Hrun & Hlen & _ & _ & _ & _ & Hproof & _).
    exists self1, results. split; [done|]. split; [|done].
    change (__init__ twin_id device_id')
      with (with_device device_id' (__init__ twin_id device_id)).
    by rewrite sync_all_with_device, Hrun. }
  split.
  - intros snapshots. destruct (Hsame snapshots) as (self1 & results & H1 & H2 & _ & Hp).
    by exists self1, (with_device device_id' self1), results.
  - intros snapshots more more'.
    destruct (Hsame snapshots) as (self1 & results & H1 & H2 & Hlen & Hp).
    destruct (sync_all_Ok self1 more)
      as (selfa & resultsa & Ha & _ & _ & _ & _ & _ & Hpa & _).
    destruct (sync_all_Ok (with_device device_id' self1) more')
      as (selfb & resultsb & Hb & _ & _ & _ & _ & _ & Hpb & _).
    exists selfa, (results ++ resultsa), selfb, (results ++ resultsb).
    rewrite !sync_all_app, H1, H2, !bind_Ok, Ha, Hb, !bind_Ok.
    split; [done|]. split; [done|].
    rewrite Hpa, Hpb. simpl. rewrite Hp, !fmap_app, <- Hlen, <- (length_fmap proof_hash).
    by rewrite !take_app_length.
Qed.

(** C5, as stated, fails: the third call of an engine reports
    [3 / 20 = 0.15], below the [0.3] that the second call reported. *)
Lemma C5_third_call_drops_counterexample :
  ∃ self' results second third,
    sync_all (H := reference_runtime) twin_T1 [steady; steady; steady] = Ok (self', results) ∧
    results !! 1%nat = Some second ∧
    results !! 2%nat = Some third ∧
    prediction_accuracy second == 0.3 ∧
    prediction_accuracy third == 0.15 ∧
    ¬ (prediction_accuracy second <= prediction_accuracy third).
Proof.
  eexists _, _, _, _. split; [vm_compute; reflexivity|].
  split; [vm_compute; reflexivity|]. split; [vm_compute; reflexivity|].
  split; [vm_compute; reflexivity|]. split; [vm_compute; reflexivity|].
  intros Hle. revert Hle. vm_compute. intros Hle. by apply Hle.
Qed.

(** C5 (amended): the prediction accuracy of a call is [0.3] while
    fewer than 3 snapshots are recorded (the current one counted) and
    [min(1, n / 20)] for [n >= 3] recorded snapshots; of two calls on
    one engine the later one reports at least the earlier one's value
    unless the earlier is among the first two and the later is the
    third, fourth or fifth. *)
Theorem C5_prediction_accuracy `{PyRuntime} self snapshots :
  ∃ self' results,
    sync_all self snapshots = Ok (self', results) ∧
    (∀ i twin_state, results !! i = Some twin_state →
       let n := (length (physical_history self) + i + 1)%nat in
       prediction_accuracy twin_state == confidence n ∧
       ((n < 3)%nat → prediction_accuracy twin_state == 0.3) ∧
       ((3 ≤ n)%nat →
          prediction_accuracy twin_state == Qmin 1.0 (inject_Z (Z.of_nat n) / 20))) ∧
    (∀ i j earlier later,
       results !! i = Some earlier → results !! j = Some later → (i ≤ j)%nat →
       let n_i := (length (physical_history self) + i + 1)%nat in
       let n_j := (length (physical_history self) + j + 1)%nat in
       (3 ≤ n_i ∨ n_j < 3 ∨ 6 ≤ n_j)%nat →
       prediction_accuracy earlier <= prediction_accuracy later).
Proof.
  destruct (sync_all_Ok self snapshots) as (self' & results & Hrun & _).
  exists self', results. split; [done|].
  assert (∀ i twin_state, results !! i = Some twin_state →
    prediction_accuracy twin_state
      == confidence (length (physical_history self) + i + 1)) as Hvalue.
  { intros i t Hi.
    destruct (sync_all_lookup _ _ _ _ _ _ Hrun Hi) as (p & sa & an & score & _ & ->).
    simpl. apply confidence_exact. }
  split.
  - intros i t Hi n. split; [by apply Hvalue|].
    rewrite (Hvalue i t Hi). fold n. unfold confidence.
    split; intros Hn; [by rewrite decide_True|by rewrite decide_False by lia].
  - intros i j ti tj Hi Hj Hij n_i n_j Hcases.
    rewrite (Hvalue i ti Hi), (Hvalue j tj Hj). fold n_i n_j.
    assert (n_i ≤ n_j)%nat by (unfold n_i, n_j; lia).
    destruct (decide (3 ≤ n_i)%nat); [apply confidence_mono; lia|].
    destruct (decide (n_j < 3)%nat).
    + unfold confidence. rewrite !decide_True by lia. lra.
    + assert (6 ≤ n_j)%nat by lia.
      apply Qle_trans with 0.3; [|by apply confidence_ge_6].
      unfold confidence. rewrite decide_True by lia. lra.
Qed.

Lemma C5_prediction_accuracy_witness :
  ∃ self' results,
    sync_all (H := reference_runtime) twin_T1 (replicate 7 steady) = Ok (self', results) ∧
    ∀ fourth seventh,
      results !! 3%nat = Some fourth → results !! 6%nat = Some seventh →
      prediction_accuracy fourth == 0.2 ∧
      prediction_accuracy fourth <= prediction_accuracy seventh.
Proof.
  destruct (C5_prediction_accuracy (H := reference_runtime) twin_T1 (replicate 7 steady))
    as (self' & results & Hrun & Hvalue & Hmono).
  exists self', results. split; [done|]. intros fourth seventh H4 H7. split.
  - destruct (Hvalue _ _ H4) as (E & _). rewrite E. reflexivity.
  - apply (Hmono 3%nat 6%nat fourth seventh H4 H7); [lia|]. left. cbn. lia.
Defined.



Section C7_anomalies.
Import Binary64.
Local Open Scope float_scope.

(** C7, counterexample: a step of [0.5 + ε] that the subtraction rounds
    away.  The readings [- 2 ** -60] and [0.5] lie [0.5 + 2 ** -60]
    apart, and [1.0 + (0.5 + 2 ** -53)] is a step of [0.5 + ε] from
    [1.0]; in both runs the second call computes the change 0.5 and
    reports no anomaly, as it does for an unchanged reading. *)
Lemma C7_absorbed_step_counterexample :
  (to_Q 0.5 - to_Q (- 0x1p-60) == 1 / 2 + 1 / 2 ^ 60)%Q ∧
  abs (0.5 - - 0x1p-60) = 0.5 ∧
  (0 <? eps) = true ∧
  abs ((1 + (0.5 + eps)) - 1) = 0.5 ∧
  (∃ self1 twin_state1 self2 twin_state2,
     sync (H := reference_runtime) twin_T1 low = (self1, Ok twin_state1) ∧
     sync (H := reference_runtime) self1 half = (self2, Ok twin_state2) ∧
     anomalies_detected twin_state2 = 0%nat) ∧
  (∃ self1 twin_state1 self2 twin_state2,
     sync (H := reference_runtime) twin_T1 steady = (self1, Ok twin_state1) ∧
     sync (H := reference_runtime) self1 stepped = (self2, Ok twin_state2) ∧
     anomalies_detected twin_state2 = 0%nat).
Proof.
  split; [by vm_compute|]. split; [by vm_compute|]. split; [by vm_compute|].
  split; [by vm_compute|]. split.
  - eexists _, _, _, _. split; [vm_compute; reflexivity|].
    split; [vm_compute; reflexivity|]. reflexivity.
  - eexists _, _, _, _. split; [vm_compute; reflexivity|].
    split; [vm_compute; reflexivity|]. reflexivity.
Qed.

(** C7: [_detect_anomalies] never raises, and [sync] reports its count.
    The count is 0 on an engine without history; otherwise it is the
    number of readings of the new snapshot whose key the preceding
    snapshot has too and whose change [abs(new - old)], as binary64
    computes it, exceeds 0.5.  It is 0 when all shared readings are
    unchanged, and moving one unchanged shared reading so that the
    computed change exceeds 0.5 adds one. *)
Theorem C7_anomaly_count `{Runtime} :
  (∀ self physical, ∃ anomalies,
     _detect_anomalies (append_physical self physical) physical = Ok anomalies ∧
     ∀ self' twin_state,
       sync self physical = (self', Ok twin_state) →
       anomalies_detected twin_state = anomalies) ∧
  (∀ self physical, physical_history self = [] →
     _detect_anomalies (append_physical self physical) physical = Ok 0%nat) ∧
  (∀ self physical hist prev,
     physical_history self = hist ++ [prev] → NoDup (sensors physical).*1 →
     _detect_anomalies (append_physical self physical) physical
       = Ok (anomalous_keys (sensors prev) (sensors physical))) ∧
  (∀ prev current,
     anomalous_keys prev current
       = length (filter (λ reading, anomalous prev reading = true) current) ∧
     ∀ key v, anomalous prev (key, v) = true ↔
              ∃ old, dict_get prev key = Some old ∧ (0.5 <? abs (v - old)) = true) ∧
  (∀ prev current,
     (∀ key old new, dict_get prev key = Some old → (key, new) ∈ current → new = old) →
     anomalous_keys prev current = 0%nat) ∧
  (∀ prev before after key old new,
     dict_get prev key = Some old → (0.5 <? abs (new - old)) = true →
     anomalous_keys prev (before ++ (key, new) :: after)
       = S (anomalous_keys prev (before ++ (key, old) :: after))).
Proof.
  split; [|split; [|split; [|split; [|split]]]].
  - intros self physical.
    destruct (b64_detect_anomalies_Ok (append_physical self physical) physical)
      as [anomalies Han].
    exists anomalies. split; [done|]. intros self' twin_state Hsync.
    destruct (b64_sync_cases self physical)
      as [(sa & pa & an & score & predicted & Hassess & _ & Hsync')|[_ Hsync']];
      rewrite Hsync in Hsync'; [|congruence].
    injection Hsync' as _ ->. cbn [twin_state_of anomalies_detected].
    destruct (b64_assess_cases (append_physical self physical) physical)
      as [(sa' & pa' & an' & si & bc & score' & _ & _ & Han' & _ & _ & Hassess')|[Hraise _]];
      congruence.
  - apply b64_detect_anomalies_first.
  - apply b64_detect_anomalies_later.
  - intros prev current. split; [reflexivity|]. apply b64_anomalous_spec.
  - apply b64_anomalous_keys_unchanged.
  - intros prev before after key old new Hold Hmoved.
    rewrite !b64_anomalous_keys_app, !b64_anomalous_keys_cons.
    rewrite (b64_unchanged_not_anomalous _ _ _ Hold).
    rewrite (proj2 (b64_anomalous_spec prev key new)) by eauto. lia.
Qed.

Lemma C7_anomaly_count_witness :
  ∃ self2 twin_state2,
    sync (H := reference_runtime) (sync (H := reference_runtime) twin_T1 steady).1 moved
      = (self2, Ok twin_state2) ∧
    anomalies_detected twin_state2 = 1%nat.
Proof.
  destruct (C7_anomaly_count (H := reference_runtime)) as (Hcount & _ & Hlater & _).
  destruct (Hcount (sync (H := reference_runtime) twin_T1 steady).1 moved)
    as (anomalies & Han & Hreport).
  rewrite (Hlater _ moved [] steady) in Han.
  - injection Han as <-.
    destruct (sync (sync twin_T1 steady).1 moved) as [self2 [twin_state2|e]] eqn:Hsync.
    + exists self2, twin_state2. split; [reflexivity|]. exact (Hreport _ _ eq_refl).
    + vm_compute in Hsync. discriminate Hsync.
  - vm_compute. reflexivity.
  - repeat constructor. by intros ?%elem_of_nil.
Defined.
End C7_anomalies.

Section C8_exceptions.
Import Binary64.
Local Open Scope float_scope.

(** C8, counterexample: two [sync] calls that raise [OverflowError].
    With the sensors [{a: 1e200, b: 0.0}] the mean is 5e199 and
    [(1e200 - 5e199) ** 2] leaves the range of a double in
    [_sensor_integration].  And a snapshot without sensors raises in
    [_behavioral_consistency] on the engine that three returned calls
    leave when the first of them had the health [-6e200], hence a score
    of about [-1e200]. *)
#[warnings="-inexact-float"]
Lemma C8_overflow_counterexample :
  pow2 (1e200 - 5e199) = Raise OverflowError ∧
  _sensor_integration (H := reference_runtime) huge = Raise OverflowError ∧
  sync (H := reference_runtime) twin_T1 huge
    = (append_physical twin_T1 huge, Raise OverflowError) ∧
  ∃ self3 twin_state1 twin_state2 twin_state3,
    sync_all (H := reference_runtime) twin_T1 [sinking; blank; blank]
      = (self3, [Ok twin_state1; Ok twin_state2; Ok twin_state3]) ∧
    sensors blank = [] ∧
    _behavioral_consistency self3 = Raise OverflowError ∧
    sync (H := reference_runtime) self3 blank
      = (append_physical self3 blank, Raise OverflowError).
Proof.
  split; [vm_compute; reflexivity|]. split; [vm_compute; reflexivity|].
  split; [vm_compute; reflexivity|].
  eexists _, _, _, _. split; [vm_compute; reflexivity|].
  split; [reflexivity|]. split; vm_compute; reflexivity.
Qed.

(** C8: on doubles the only exception of [sync] is the [OverflowError]
    of a squared deviation, in [_sensor_integration] or in [_behavioral_consistency]:
    no division by zero, no index and no key fails, and the call returns
    exactly when neither indicator overflows.  A call that raises leaves
    the engine with the snapshot appended.  An empty [sensors] mapping
    gives the integration indicator 0.0 and, like a single sensor, never
    overflows there; with fewer than three records the consistency
    indicator never overflows either. *)
Theorem C8_sync_raises_only_overflow `{Runtime} self physical :
  (∀ self' e, sync self physical = (self', Raise e) →
     e = OverflowError ∧ self' = append_physical self physical ∧
     (_sensor_integration physical = Raise OverflowError ∨
      _behavioral_consistency self = Raise OverflowError)) ∧
  ((∃ self' twin_state, sync self physical = (self', Ok twin_state)) ↔
   ¬ raises (_sensor_integration physical) ∧ ¬ raises (_behavioral_consistency self)) ∧
  (raises (_sensor_integration physical) ↔
   (2 ≤ length (sensors physical))%nat ∧
   (py_sum (sensors physical).*2 / of_Z (py_len (sensors physical).*2) =? 0) = false ∧
   Exists (λ v,
             let mean := py_sum (sensors physical).*2 / of_Z (py_len (sensors physical).*2) in
             is_finite (v - mean) && is_infinity ((v - mean) * (v - mean)) = true)
          (sensors physical).*2) ∧
  (sensors physical = [] → _sensor_integration physical = Ok 0) ∧
  ((length (sensors physical) < 2)%nat → (length (twin_history self) < 3)%nat →
   ∃ self' twin_state, sync self physical = (self', Ok twin_state)).
Proof.
  split; [|split; [|split; [|split]]].
  - intros self' e Hsync.
    destruct (b64_sync_cases self physical)
      as [(sa & pa & an & score & predicted & _ & _ & Hsync')|[Hassess Hsync']];
      rewrite Hsync in Hsync'; [congruence|].
    injection Hsync' as -> ->. split; [done|]. split; [done|].
    destruct (b64_assess_cases (append_physical self physical) physical)
      as [(sa & pa & an & si & bc & score & _ & _ & _ & _ & _ & Hassess')|[_ Hraise]];
      [congruence|exact Hraise].
  - apply b64_sync_returns.
  - apply b64_sensor_integration_raises.
  - intros Hnone. unfold _sensor_integration. by rewrite Hnone.
  - intros Hsensors Hrecords. apply b64_sync_returns. split.
    + intros (Hlen & _)%b64_sensor_integration_raises. lia.
    + intros (Hlen & _)%b64_behavioral_consistency_raises. lia.
Qed.

Lemma C8_sync_raises_only_overflow_witness :
  ∃ self' twin_state,
    sync (H := reference_runtime) twin_T1 blank = (self', Ok twin_state).
Proof.
  destruct (C8_sync_raises_only_overflow (H := reference_runtime) twin_T1 blank)
    as (_ & _ & _ & _ & Hreturns).
  apply Hreturns; simpl; lia.
Defined.
End C8_exceptions.

Section Proof_facts.
Context `{PyRuntime}.

(** The hash reads the score through its rounding to 6 decimals only. *)
Lemma proof_of_round twin_id timestamp score score' level anomalies :
  py_round score 6 == py_round score' 6 →
  proof_of twin_id timestamp score level anomalies
    = proof_of twin_id timestamp score' level anomalies.
Proof.
  intros E. unfold proof_of, proof_record. by rewrite (py_round_canon _ _ _ E).
Qed.
End Proof_facts.

Section C9_proof_hash.
Import Binary64.
Local Open Scope float_scope.

(** C9, counterexample: two assessments that agree on the five values
    and get different hashes.  On a new engine the snapshots
    [below_zero] and [above_zero] have no sensors and healths that put
    the score just below and just above zero; both scores round to
    zero, [-0.0] and [0.0], which compare equal, and [json.dumps] writes
    the two differently. *)
Lemma C9_signed_zero_counterexample :
  ∃ sync_accuracy1 prediction_accuracy1 anomalies1 score1
    sync_accuracy2 prediction_accuracy2 anomalies2 score2
    self1 twin_state1 self2 twin_state2,
    assess (H := reference_runtime) (append_physical twin_T1 below_zero) below_zero
      = Ok (sync_accuracy1, prediction_accuracy1, anomalies1, score1) ∧
    assess (H := reference_runtime) (append_physical twin_T1 above_zero) above_zero
      = Ok (sync_accuracy2, prediction_accuracy2, anomalies2, score2) ∧
    timestamp below_zero = timestamp above_zero ∧
    (py_round score1 6 =? py_round score2 6) = true ∧
    level_of_score score1 = level_of_score score2 ∧
    anomalies1 = anomalies2 ∧
    sync (H := reference_runtime) twin_T1 below_zero = (self1, Ok twin_state1) ∧
    sync (H := reference_runtime) twin_T1 above_zero = (self2, Ok twin_state2) ∧
    dumps (JFloat (py_round score1 6)) = "-0.0"%string ∧
    dumps (JFloat (py_round score2 6)) = "0.0"%string ∧
    proof_hash twin_state1 ≠ proof_hash twin_state2.
Proof.
  eexists _, _, _, _, _, _, _, _, _, _, _, _.
  split; [vm_compute; reflexivity|]. split; [vm_compute; reflexivity|].
  split; [reflexivity|]. split; [vm_compute; reflexivity|].
  split; [vm_compute; reflexivity|]. split; [reflexivity|].
  split; [vm_compute; reflexivity|]. split; [vm_compute; reflexivity|].
  split; [vm_compute; reflexivity|]. split; [vm_compute; reflexivity|].
  vm_compute. discriminate.
Qed.

(** C9: the hash a call appends is the digest of the record of
    [twin_id], the snapshot's [timestamp], the score rounded to 6
    decimals, the label and the anomaly count, and of nothing else: two
    calls whose assessments agree on these five values, the rounded
    score as one and the same double, append the same hash, whatever the
    engines' histories and proof chains. *)
Theorem C9_hash_of_five_fields `{Runtime}
    self1 self2 physical1 physical2
    sync_accuracy1 prediction_accuracy1 anomalies1 score1
    sync_accuracy2 prediction_accuracy2 anomalies2 score2 :
  assess (append_physical self1 physical1) physical1
    = Ok (sync_accuracy1, prediction_accuracy1, anomalies1, score1) →
  assess (append_physical self2 physical2) physical2
    = Ok (sync_accuracy2, prediction_accuracy2, anomalies2, score2) →
  self_twin_id self1 = self_twin_id self2 →
  timestamp physical1 = timestamp physical2 →
  py_round score1 6 = py_round score2 6 →
  level_of_score score1 = level_of_score score2 →
  anomalies1 = anomalies2 →
  ∃ self1' twin_state1 self2' twin_state2,
    sync self1 physical1 = (self1', Ok twin_state1) ∧
    sync self2 physical2 = (self2', Ok twin_state2) ∧
    proof_hash twin_state1 =
      sha256_hexdigest
        (json_dumps_sorted
           (JDict [("twin_id", JStr (self_twin_id self1));
                   ("timestamp", JStr (timestamp physical1));
                   ("score", JFloat (py_round score1 6));
                   ("level", JStr (level_of_score score1));
                   ("anomalies", JInt (Z.of_nat anomalies1))])) ∧
    proof_hash twin_state1 = proof_hash twin_state2 ∧
    proof_chain self1' = proof_chain self1 ++ [proof_hash twin_state1] ∧
    proof_chain self2' = proof_chain self2 ++ [proof_hash twin_state2].
Proof.
  intros Hassess1 Hassess2 Hid Htime Hscore Hlevel Hanomalies.
  destruct (b64_sync_cases self1 physical1)
    as [(sa1 & pa1 & an1 & s1 & predicted1 & Ha1 & _ & Hsync1)|[Ha1 _]];
    rewrite Hassess1 in Ha1; [|done].
  destruct (b64_sync_cases self2 physical2)
    as [(sa2 & pa2 & an2 & s2 & predicted2 & Ha2 & _ & Hsync2)|[Ha2 _]];
    rewrite Hassess2 in Ha2; [|done].
  injection Ha1 as <- <- <- <-. injection Ha2 as <- <- <- <-.
  eexists _, _, _, _. split; [exact Hsync1|]. split; [exact Hsync2|].
  cbn [twin_state_of proof_hash after_sync proof_chain].
  unfold proof_of, proof_record.
  rewrite Hid, Htime, Hscore, Hlevel, Hanomalies. done.
Qed.

Lemma C9_hash_of_five_fields_witness :
  ∃ self1 twin_state1 self2 twin_state2,
    sync (H := reference_runtime) twin_T1 sinking = (self1, Ok twin_state1) ∧
    sync (H := reference_runtime) self1 sinking = (self2, Ok twin_state2) ∧
    proof_chain self1 = [proof_hash twin_state1] ∧
    proof_hash twin_state1 = proof_hash twin_state2.
Proof.
  edestruct (C9_hash_of_five_fields (H := reference_runtime)
               twin_T1 (sync (H := reference_runtime) twin_T1 sinking).1 sinking sinking)
    as (self1 & twin_state1 & self2 & twin_state2 & Hsync1 & Hsync2 & _ & Hsame & Hchain & _).
  - vm_compute. reflexivity.
  - vm_compute. reflexivity.
  - reflexivity.
  - reflexivity.
  - vm_compute. reflexivity.
  - vm_compute. reflexivity.
  - reflexivity.
  - rewrite Hsync1 in Hsync2. exists self1, twin_state1, self2, twin_state2.
    split; [exact Hsync1|]. split; [exact Hsync2|]. split; [exact Hchain|exact Hsame].
Defined.
End C9_proof_hash.

(** C10: the label of the returned record is that of the unrounded
    score while [consciousness_score] is the score rounded to 4
    decimals; for every score within 0.00005 below a threshold the two
    disagree, and a run of 26 calls on a new engine ends with the label
    "C-3 Autonomous" next to the score 0.8500. *)
Theorem C10_label_of_unrounded_score `{PyRuntime} :
  (∀ self physical, ∃ sync_accuracy prediction_accuracy anomalies score self' twin_state,
      assess (append_physical self physical) physical
        = Ok (sync_accuracy, prediction_accuracy, anomalies, score) ∧
      sync self physical = Ok (self', twin_state) ∧
      consciousness_level twin_state = level_of_score score ∧
      consciousness_score twin_state = py_round score 4) ∧
  (∀ score, 0.84995 <= score < 0.85 →
      level_of_score score = "C-3 Autonomous" ∧
      level_of_score (py_round score 4) = "C-4 Transcendent") ∧
  (∀ score, 0.69995 <= score < 0.70 →
      level_of_score score = "C-2 Emerging" ∧
      level_of_score (py_round score 4) = "C-3 Autonomous") ∧
  (∀ score, 0.49995 <= score < 0.50 →
      level_of_score score = "C-1 Functional" ∧
      level_of_score (py_round score 4) = "C-2 Emerging") ∧
  (∀ score, 0.19995 <= score < 0.20 →
      level_of_score score = "C-0 Reactive" ∧
      level_of_score (py_round score 4) = "C-1 Functional") ∧
  (∃ self' results twin_state,
      sync_all twin_T1 (replicate 25 steady ++ [nudged]) = Ok (self', results) ∧
      last results = Some twin_state ∧
      consciousness_level twin_state = "C-3 Autonomous" ∧
      consciousness_score twin_state == 0.85 ∧
      level_of_score (consciousness_score twin_state) = "C-4 Transcendent").
Proof.
  split; [|split; [|split; [|split; [|split]]]].
  - intros self physical.
    destruct (assess_Ok (append_physical self physical) physical)
      as (sa & an & si & bc & score & _ & _ & _ & _ & _ & Hassess).
    destruct (predicted_sensors_Ok (append_physical self physical) physical)
      as (predicted & Hpredicted).
    eexists sa, _, an, score, _, _. split; [exact Hassess|].
    split; [exact (sync_of_assess _ _ _ _ _ _ _ Hassess Hpredicted)|done].
  - intros score Hscore.
    destruct (level_of_score_tiers score) as (_ & H3 & _).
    split; [apply H3; lra|].
    assert (0.85 <= py_round score 4) as Hup.
    { apply Qle_trans with (py_round 0.84995 4); [by compute|apply py_round_mono; lra]. }
    by apply level_of_score_tiers.
  - intros score Hscore.
    destruct (level_of_score_tiers score) as (_ & _ & H2 & _).
    split; [apply H2; lra|].
    assert (0.70 <= py_round score 4 <= 0.70) as Hup.
    { split.
      - apply Qle_trans with (py_round 0.69995 4); [by compute|apply py_round_mono; lra].
      - apply Qle_trans with (py_round 0.70 4); [apply py_round_mono; lra|by compute]. }
    apply level_of_score_tiers. lra.
  - intros score Hscore.
    destruct (level_of_score_tiers score) as (_ & _ & _ & H1 & _).
    split; [apply H1; lra|].
    assert (0.50 <= py_round score 4 <= 0.50) as Hup.
    { split.
      - apply Qle_trans with (py_round 0.49995 4); [by compute|apply py_round_mono; lra].
      - apply Qle_trans with (py_round 0.50 4); [apply py_round_mono; lra|by compute]. }
    apply level_of_score_tiers. lra.
  - intros score Hscore.
    destruct (level_of_score_tiers score) as (_ & _ & _ & _ & H0).
    split; [apply H0; lra|].
    assert (0.20 <= py_round score 4 <= 0.20) as Hup.
    { split.
      - apply Qle_trans with (py_round 0.19995 4); [by compute|apply py_round_mono; lra].
      - apply Qle_trans with (py_round 0.20 4); [apply py_round_mono; lra|by compute]. }
    apply level_of_score_tiers. lra.
  - eexists _, _, _. split; [vm_compute; reflexivity|].
    repeat split; vm_compute; reflexivity.
Qed.

Lemma C10_label_of_unrounded_score_witness :
  level_of_score 0.849983 = "C-3 Autonomous" ∧
  level_of_score (py_round 0.849983 4) = "C-4 Transcendent".
Proof.
  destruct (C10_label_of_unrounded_score (H := reference_runtime)) as (_ & Hnear & _).
  apply Hnear. split; by compute.
Defined.

(** * Further properties *)

(** ** The stored prediction *)

Lemma predicted_sensors_first self physical :
  (length (physical_history self) < 2)%nat →
  predicted_sensors self physical = Ok (sensors physical).
Proof. intros Hlen. unfold predicted_sensors. by rewrite decide_False by lia. Qed.

Lemma predicted_sensors_later self physical hist prev cur :
  physical_history self = hist ++ [prev; cur] →
  predicted_sensors self physical =
    Ok (map_imap (λ key val, Some (val + (val - default val (sensors prev !! key)) * 0.5))
                 (sensors physical)).
Proof.
  intros E. unfold predicted_sensors. rewrite E, index_from_end_prev.
  by rewrite decide_True by (rewrite length_app; simpl; lia).
Qed.

Lemma predicted_after_first self physical :
  physical_history self = [] →
  predicted_sensors (append_physical self physical) physical = Ok (sensors physical).
Proof.
  intros E. apply predicted_sensors_first.
  cbn [append_physical physical_history]. rewrite E. simpl. lia.
Qed.

Lemma predicted_after_later self physical hist prev :
  physical_history self = hist ++ [prev] →
  predicted_sensors (append_physical self physical) physical =
    Ok (map_imap (λ key val, Some (val + (val - default val (sensors prev !! key)) * 0.5))
                 (sensors physical)).
Proof.
  intros E. apply (predicted_sensors_later _ _ hist prev physical).
  cbn [append_physical physical_history]. by rewrite E, <- app_assoc.
Qed.




Section Call_facts.
Context `{PyRuntime}.

(** Everything one call computes, in one statement. *)
Lemma sync_spec self physical :
  ∃ sync_accuracy anomalies integration consistency score predicted,
    _compute_sync_accuracy (append_physical self physical) physical = Ok sync_accuracy ∧
    _detect_anomalies (append_physical self physical) physical = Ok anomalies ∧
    _sensor_integration physical = Ok integration ∧
    _behavioral_consistency (append_physical self physical) = Ok consistency ∧
    score == (sync_accuracy + Qmin 1.0 (py_len (twin_history self) / 10) + integration
              + confidence (S (length (physical_history self)))
              + _attention_focus physical + consistency) / 6 ∧
    predicted_sensors (append_physical self physical) physical = Ok predicted ∧
    sync self physical =
      Ok (after_sync self physical
            (twin_state_of (self_twin_id self) (timestamp physical) sync_accuracy
               (confidence (S (length (physical_history self)))) anomalies score)
            predicted,
          twin_state_of (self_twin_id self) (timestamp physical) sync_accuracy
            (confidence (S (length (physical_history self)))) anomalies score).
Proof.
  destruct (assess_Ok (append_physical self physical) physical)
    as (sa & an & si & bc & score & Hsa & Han & Hsi & Hbc & Hscore & Hassess).
  destruct (predicted_sensors_Ok (append_physical self physical) physical)
    as (predicted & Hpredicted).
  cbn [append_physical physical_history twin_history] in Hscore, Hassess.
  rewrite length_app, Nat.add_1_r in Hscore, Hassess.
  exists sa, an, si, bc, score, predicted. repeat split; try done.
  exact (sync_of_assess _ _ _ _ _ _ _ Hassess Hpredicted).
Qed.
End Call_facts.


#[global] Instance key_accuracy_proper : Proper (Qeq ==> Qeq ==> Qeq) key_accuracy.
Proof.
  intros x x' Hx y y' Hy. unfold key_accuracy.
  assert (Qabs (x - y) == Qabs (x' - y')) as -> by (by rewrite Hx, Hy).
  reflexivity.
Qed.


Section Prediction_facts.
Context `{PyRuntime}.

End Prediction_facts.






(** ** Behavioural consistency *)

Lemma slice_last_app {A} (old window : list A) n :
  length window = n → slice_last n (old ++ window) = window.
Proof.
  intros <-. unfold slice_last. rewrite length_app.
  replace (length old + length window - length window)%nat with (length old) by lia.
  apply drop_app_length.
Qed.

Section X4_consistency.
Import Binary64.
Local Open Scope float_scope.

(** X4: [_behavioral_consistency] on doubles.  It is the default 0.5
    while fewer than 3 records exist.  With three or more it raises
    nothing but [OverflowError], and that exactly when the square of the
    deviation of one of the last five scores from their mean leaves the
    range of a double; a value it returns is 0 or positive, never
    negative and never NaN. *)
Theorem X4_behavioral_consistency :
  (∀ self, (length (twin_history self) < 3)%nat → _behavioral_consistency self = Ok 0.5) ∧
  (∀ self e, _behavioral_consistency self = Raise e → e = OverflowError) ∧
  (∀ self,
     let recent := consciousness_score <$> slice_last 5 (twin_history self) in
     let mean := py_sum recent / of_Z (py_len recent) in
     raises (_behavioral_consistency self) ↔
     (3 ≤ length (twin_history self))%nat ∧
     Exists (λ s, is_finite (s - mean) && is_infinity ((s - mean) * (s - mean)) = true)
            recent) ∧
  (∀ self consistency,
     _behavioral_consistency self = Ok consistency → (0 <=? consistency) = true).
Proof.
  split; [|split; [|split]].
  - intros self Hlen. unfold _behavioral_consistency. by rewrite decide_True.
  - apply b64_behavioral_consistency_raise.
  - apply b64_behavioral_consistency_raises.
  - intros self consistency. unfold _behavioral_consistency. case_decide as Hlen.
    + by intros [= <-].
    + assert (py_len (consciousness_score <$> slice_last 5 (twin_history self)) ≠ 0%Z)
        as Hn by (unfold py_len; rewrite length_fmap, length_slice_last; lia).
      rewrite b64_truediv_int_Ok, bind_Ok by done.
      destruct (mapM _ _) as [squares|e]; [|by rewrite bind_Raise].
      rewrite bind_Ok, b64_truediv_int_Ok, bind_Ok by done.
      intros [= <-]. apply py_max_zero.
Qed.
End X4_consistency.

(** X5: only the last five records count.  Two engines whose histories
    end with the same five records have the same consistency, whatever
    came before. *)
Theorem X5_consistency_window self1 self2 old1 old2 window :
  twin_history self1 = old1 ++ window →
  twin_history self2 = old2 ++ window →
  length window = 5%nat →
  _behavioral_consistency self1 = _behavioral_consistency self2.
Proof.
  intros H1 H2 Hlen. unfold _behavioral_consistency.
  rewrite H1, H2, !(slice_last_app _ _ 5 Hlen), !length_app, Hlen.
  by rewrite !decide_False by lia.
Qed.

Lemma X5_consistency_window_witness :
  _behavioral_consistency (with_scores [0.9; 0.1; 0.1; 0.2; 0.3; 0.4; 0.5])
    = _behavioral_consistency (with_scores [0.1; 0.2; 0.3; 0.4; 0.5]).
Proof.
  apply (X5_consistency_window _ _ (scored <$> [0.9; 0.1]) []
           (scored <$> [0.1; 0.2; 0.3; 0.4; 0.5])); reflexivity.
Defined.

(** ** Sensor integration *)

Lemma values_length (m : gmap string Q) : length (map_to_list m).*2 = size m.
Proof. by rewrite length_fmap, length_map_to_list. Qed.

(** X6: the literal results of [_sensor_integration].  A snapshot with
    one sensor scores 0.3 whatever it reads, and one with two or more
    sensors whose readings sum to zero scores 0.0. *)
Theorem X6_integration_literals `{PyRuntime} :
  (∀ physical, size (sensors physical) = 1%nat → _sensor_integration physical = Ok 0.3) ∧
  (∀ physical,
     (2 ≤ size (sensors physical))%nat → map_sum (sensors physical) == 0 →
     _sensor_integration physical = Ok 0.0).
Proof.
  split.
  - intros physical Hone. unfold _sensor_integration.
    rewrite decide_False by (intros E; rewrite E, map_size_empty in Hone; lia).
    by rewrite decide_True by (rewrite values_length; lia).
  - intros physical Htwo Hzero. unfold _sensor_integration.
    rewrite decide_False by (intros E; rewrite E, map_size_empty in Htwo; lia).
    rewrite decide_False by (rewrite values_length; lia).
    set (values := (map_to_list (sensors physical)).*2).
    assert (1 ≤ length values)%nat as Hvalues
      by (unfold values; rewrite values_length; lia).
    rewrite (truediv_Ok _ _ (py_len_nonzero values Hvalues)), bind_Ok.
    assert (Qeq_bool (py_sum values / py_len values) 0 = true) as ->; [|done].
    apply Qeq_bool_iff. unfold values. rewrite <- map_sum_to_list, Hzero.
    unfold Qdiv. ring.
Qed.

Lemma X6_integration_literals_witness :
  _sensor_integration (H := reference_runtime) steady = Ok 0.3 ∧
  _sensor_integration (H := reference_runtime) balanced = Ok 0.0.
Proof.
  destruct (X6_integration_literals (H := reference_runtime)) as (Hone & Hzero).
  split; [apply Hone|apply Hzero]; vm_compute; reflexivity.
Defined.

(** ** What a call reads and what it keeps *)

Lemma detect_anomalies_after self physical :
  _detect_anomalies (append_physical self physical) physical =
    match last (physical_history self) with
    | Some prev => Ok (anomalous_keys (sensors prev) (sensors physical))
    | None => Ok 0%nat
    end.
Proof.
  destruct (physical_history self) as [|prev hist _] eqn:E using rev_ind.
  - apply detect_anomalies_first. cbn [append_physical physical_history].
    rewrite E. simpl. lia.
  - rewrite last_snoc. apply (detect_anomalies_later _ _ hist prev physical).
    cbn [append_physical physical_history]. by rewrite E, <- app_assoc.
Qed.

Lemma predicted_after self physical :
  predicted_sensors (append_physical self physical) physical =
    match last (physical_history self) with
    | Some prev =>
      Ok (map_imap (λ key val, Some (val + (val - default val (sensors prev !! key)) * 0.5))
                   (sensors physical))
    | None => Ok (sensors physical)
    end.
Proof.
  destruct (physical_history self) as [|prev hist _] eqn:E using rev_ind.
  - by apply predicted_after_first.
  - rewrite last_snoc. by apply (predicted_after_later _ _ hist prev).
Qed.

Section Inputs_read.
Context `{PyRuntime}.

(** The scoring half reads the snapshot's sensors and, through the
    attention indicator, its health. *)
Lemma assess_same_inputs self physical physical' :
  sensors physical = sensors physical' →
  _attention_focus physical = _attention_focus physical' →
  assess (append_physical self physical) physical
    = assess (append_physical self physical') physical'.
Proof.
  intros Hsensors Hattention. unfold assess.
  rewrite !detect_anomalies_after, !evaluate_predictions_Ok, Hattention.
  assert (_compute_sync_accuracy (append_physical self physical) physical
          = _compute_sync_accuracy (append_physical self physical') physical') as ->.
  { unfold _compute_sync_accuracy. cbn [append_physical predictions].
    by rewrite Hsensors. }
  assert (_sensor_integration physical = _sensor_integration physical') as ->.
  { unfold _sensor_integration. by rewrite Hsensors. }
  cbn [append_physical physical_history twin_history].
  rewrite Hsensors, !length_app. reflexivity.
Qed.

Lemma sync_same_inputs self physical physical' :
  sensors physical = sensors physical' →
  timestamp physical = timestamp physical' →
  _attention_focus physical = _attention_focus physical' →
  ∃ self1 self2 twin_state,
    sync self physical = Ok (self1, twin_state) ∧
    sync self physical' = Ok (self2, twin_state) ∧
    twin_history self1 = twin_history self2 ∧
    proof_chain self1 = proof_chain self2 ∧
    predictions self1 = predictions self2.
Proof.
  intros Hsensors Htime Hattention.
  destruct (assess_Ok (append_physical self physical) physical)
    as (sa & an & si & bc & score & _ & _ & _ & _ & _ & Hassess).
  destruct (predicted_sensors_Ok (append_physical self physical) physical)
    as (predicted & Hpredicted).
  pose proof Hassess as Hassess'.
  rewrite (assess_same_inputs _ _ physical' Hsensors Hattention) in Hassess'.
  pose proof Hpredicted as Hpredicted'.
  rewrite predicted_after in Hpredicted'. rewrite Hsensors in Hpredicted'.
  rewrite <- predicted_after in Hpredicted'.
  eexists _, _, _.
  split; [exact (sync_of_assess _ _ _ _ _ _ _ Hassess Hpredicted)|].
  rewrite (sync_of_assess _ _ _ _ _ _ _ Hassess' Hpredicted'), <- Htime.
  by cbn [after_sync twin_history proof_chain predictions].
Qed.
End Inputs_read.

(** X9: [sync] never reads a snapshot's [device_id] or [actuators].  Two
    snapshots with the same sensors, health and timestamp get the same
    [TwinState], hash included, and leave the same twin history, proof
    chain and predictions. *)
Theorem X9_device_and_actuators_unread `{PyRuntime} self physical physical' :
  sensors physical = sensors physical' →
  health physical = health physical' →
  timestamp physical = timestamp physical' →
  ∃ self1 self2 twin_state,
    sync self physical = Ok (self1, twin_state) ∧
    sync self physical' = Ok (self2, twin_state) ∧
    twin_history self1 = twin_history self2 ∧
    proof_chain self1 = proof_chain self2 ∧
    predictions self1 = predictions self2.
Proof.
  intros Hsensors Hhealth Htime. apply sync_same_inputs; [done|done|].
  unfold _attention_focus. by rewrite Hhealth.
Qed.

Lemma X9_device_and_actuators_unread_witness :
  ∃ self1 self2 twin_state,
    sync (H := reference_runtime) after_first steady = Ok (self1, twin_state) ∧
    sync (H := reference_runtime) after_first steady_elsewhere = Ok (self2, twin_state) ∧
    twin_history self1 = twin_history self2 ∧
    proof_chain self1 = proof_chain self2 ∧
    predictions self1 = predictions self2.
Proof.
  apply (X9_device_and_actuators_unread (H := reference_runtime)
           after_first steady steady_elsewhere); reflexivity.
Defined.

Lemma Qmin_above_one health : 1 <= health → Qmin 1.0 health = 1.0.
Proof.
  intros Hh. unfold Qmin, GenericMinMax.gmin.
  destruct (Qcompare 1.0 health) eqn:E; [done|done|].
  apply Qgt_alt in E. lra.
Qed.

Section Health_facts.
Context `{PyRuntime}.

(** Two snapshots with the same sensors: everything but the attention
    indicator is shared. *)
Lemma sync_health_only self physical physical' :
  sensors physical = sensors physical' →
  ∃ rest sync_accuracy' anomalies score score' self1 self2,
    score == (rest + _attention_focus physical) / 6 ∧
    score' == (rest + _attention_focus physical') / 6 ∧
    sync self physical =
      Ok (self1, twin_state_of (self_twin_id self) (timestamp physical) sync_accuracy'
                   (confidence (S (length (physical_history self)))) anomalies score) ∧
    sync self physical' =
      Ok (self2, twin_state_of (self_twin_id self) (timestamp physical') sync_accuracy'
                   (confidence (S (length (physical_history self)))) anomalies score').
Proof.
  intros Hsensors.
  destruct (sync_spec self physical)
    as (sa & an & si & bc & score & predicted & Hsa & Han & Hsi & Hbc & Hscore & _ & Hsync).
  destruct (sync_spec self physical')
    as (sa' & an' & si' & bc' & score' & predicted'
        & Hsa' & Han' & Hsi' & Hbc' & Hscore' & _ & Hsync').
  assert (sa' = sa) as ->.
  { unfold _compute_sync_accuracy in Hsa, Hsa'. cbn [append_physical predictions] in Hsa, Hsa'.
    rewrite Hsensors, Hsa' in Hsa. by injection Hsa. }
  assert (an' = an) as ->.
  { rewrite detect_anomalies_after in Han, Han'. rewrite Hsensors, Han' in Han.
    by injection Han. }
  assert (si' = si) as ->.
  { unfold _sensor_integration in Hsi, Hsi'. rewrite Hsensors, Hsi' in Hsi.
    by injection Hsi. }
  assert (bc' = bc) as ->.
  { change (_behavioral_consistency (append_physical self physical'))
      with (_behavioral_consistency (append_physical self physical)) in Hbc'.
    rewrite Hbc' in Hbc. by injection Hbc. }
  exists (sa + Qmin 1.0 (py_len (twin_history self) / 10) + si
          + confidence (S (length (physical_history self))) + bc).
  eexists sa, an, score, score', _, _.
  split; [rewrite Hscore; field|]. split; [rewrite Hscore'; field|].
  split; [exact Hsync|exact Hsync'].
Qed.
End Health_facts.

(** X10: health counts up to 1 only and never lowers a score.  Two
    snapshots with the same sensors and timestamp and health at least 1
    get the same [TwinState]; with the same sensors, the snapshot with
    the higher health gets the same [sync_accuracy],
    [prediction_accuracy] and anomaly count and a [consciousness_score]
    at least as high. *)
Theorem X10_health_clamped_and_monotone `{PyRuntime} self physical physical' :
  sensors physical = sensors physical' →
  health physical <= health physical' →
  ∃ self1 self2 twin_state twin_state',
    sync self physical = Ok (self1, twin_state) ∧
    sync self physical' = Ok (self2, twin_state') ∧
    sync_accuracy twin_state = sync_accuracy twin_state' ∧
    prediction_accuracy twin_state = prediction_accuracy twin_state' ∧
    anomalies_detected twin_state = anomalies_detected twin_state' ∧
    consciousness_score twin_state <= consciousness_score twin_state' ∧
    (1 <= health physical → timestamp physical = timestamp physical' →
     twin_state = twin_state').
Proof.
  intros Hsensors Hhealth.
  destruct (sync_health_only self physical physical' Hsensors)
    as (rest & sa & an & score & score' & self1 & self2 & Hscore & Hscore' & Hsync & Hsync').
  eexists self1, self2, _, _. split; [exact Hsync|]. split; [exact Hsync'|].
  cbn [twin_state_of sync_accuracy prediction_accuracy anomalies_detected
       consciousness_score].
  repeat split.
  - apply py_round_mono. rewrite Hscore, Hscore'.
    assert (_attention_focus physical <= _attention_focus physical')
      by (by apply Q.min_le_compat_l).
    apply Qle_shift_div_l; [lra|]. field_simplify. lra.
  - intros Hone Htime.
    destruct (sync_same_inputs self physical physical' Hsensors Htime)
      as (self1' & self2' & twin_state & Hs & Hs' & _).
    { unfold _attention_focus. rewrite !Qmin_above_one by lra. done. }
    rewrite Hsync in Hs. rewrite Hsync' in Hs'.
    injection Hs as _ Et. injection Hs' as _ Et'. by rewrite Et, Et'.
Qed.

Lemma X10_health_clamped_and_monotone_witness :
  ∃ self1 self2 twin_state,
    sync (H := reference_runtime) after_first steady = Ok (self1, twin_state) ∧
    sync (H := reference_runtime) after_first steady_overhealthy = Ok (self2, twin_state).
Proof.
  destruct (X10_health_clamped_and_monotone (H := reference_runtime)
              after_first steady steady_overhealthy)
    as (self1 & self2 & twin_state & twin_state' & Hsync & Hsync' & _ & _ & _ & _ & Hsame);
    [reflexivity|by compute|].
  exists self1, self2, twin_state. split; [exact Hsync|].
  rewrite (Hsame ltac:(by compute) eq_refl). exact Hsync'.
Defined.

(** ** Runs of calls *)

Section Run_history.
Context `{PyRuntime}.

(** The engine before the [i]-th call of a run, and that call. *)
Lemma sync_all_nth self snapshots self' results i twin_state :
  sync_all self snapshots = Ok (self', results) →
  results !! i = Some twin_state →
  ∃ self_i self_i' physical,
    snapshots !! i = Some physical ∧
    sync self_i physical = Ok (self_i', twin_state) ∧
    self_twin_id self_i = self_twin_id self ∧
    physical_history self_i = physical_history self ++ take i snapshots ∧
    length (twin_history self_i) = (length (twin_history self) + i)%nat ∧
    length (predictions self_i) = (length (predictions self) + i)%nat.
Proof.
  revert self results i. induction snapshots as [|physical rest IH];
    intros self results i Hrun Hi.
  - simpl in Hrun. by simplify_eq.
  - rewrite sync_all_cons in Hrun.
    destruct (sync self physical) as [[self1 t1]|] eqn:Hsync; [|done].
    rewrite bind_Ok in Hrun.
    destruct (sync_all self1 rest) as [[self2 results2]|] eqn:Hrest; [|done].
    rewrite bind_Ok in Hrun. injection Hrun as <- <-.
    destruct i as [|i]; cbn [lookup list_lookup] in Hi.
    + injection Hi as <-. exists self, self1, physical.
      rewrite take_0, app_nil_r, !Nat.add_0_r. done.
    + destruct (IH _ _ _ Hrest Hi)
        as (self_i & self_i' & p & Hp & Hcall & Hid & Hphys & Htwin & Hpred).
      destruct (sync_spec self physical)
        as (sa & an & si & bc & score & predicted & _ & _ & _ & _ & _ & _ & Hsync').
      rewrite Hsync in Hsync'. injection Hsync' as -> _.
      exists self_i, self_i', p. split; [done|]. split; [done|].
      cbn [after_sync self_twin_id physical_history twin_history predictions]
        in Hid, Hphys, Htwin, Hpred.
      rewrite !length_app in Htwin, Hpred. simpl in Htwin, Hpred.
      rewrite <- app_assoc in Hphys.
      split; [done|]. split; [done|]. split; lia.
Qed.

(** A run only appends. *)
Lemma sync_all_appends self snapshots :
  ∃ self' results new_predictions,
    sync_all self snapshots = Ok (self', results) ∧
    self_twin_id self' = self_twin_id self ∧
    self_device_id self' = self_device_id self ∧
    physical_history self' = physical_history self ++ snapshots ∧
    twin_history self' = twin_history self ++ results ∧
    proof_chain self' = proof_chain self ++ (proof_hash <$> results) ∧
    predictions self' = predictions self ++ new_predictions ∧
    length results = length snapshots ∧
    length new_predictions = length snapshots ∧
    Forall (λ twin_state, twin_id twin_state = self_twin_id self) results.
Proof.
  revert self. induction snapshots as [|physical rest IH]; intros self.
  - exists self, [], []. simpl. by rewrite !app_nil_r.
  - destruct (sync_spec self physical)
      as (sa & an & si & bc & score & predicted & _ & _ & _ & _ & _ & _ & Hsync).
    rewrite sync_all_cons, Hsync, bind_Ok.
    match goal with |- context [sync_all ?e rest] =>
      destruct (IH e) as (self' & results & new & -> & Hid & Hdev & Hphys & Htwin
                          & Hproof & Hpred & Hlen & Hnew & Hids)
    end.
    rewrite bind_Ok. eexists self', (_ :: results), (_ :: new). split; [done|].
    cbn [after_sync self_twin_id self_device_id physical_history twin_history
         proof_chain predictions twin_state_of proof_hash]
      in Hid, Hdev, Hphys, Htwin, Hproof, Hpred, Hids.
    rewrite <- app_assoc in Hphys, Htwin, Hproof, Hpred.
    repeat split; try done; simpl; try lia.
    by constructor.
Qed.
End Run_history.

Section X8_histories.
Import Binary64.

(** X8: the histories are append-only, also across calls that raise.  A
    run of calls leaves every earlier entry in place; it appends every
    snapshot to [physical_history], and for each call that returned the
    record, its hash and one prediction; [twin_id] and [device_id] never
    change, every returned record carries the engine's [twin_id], a call
    raises nothing but [OverflowError], and after a call that returned
    [proof_chain[-1]] is the hash of the last returned record. *)
Theorem X8_histories_append_only `{Runtime} self snapshots :
  ∃ self' outcomes new_predictions,
    sync_all self snapshots = (self', outcomes) ∧
    self_twin_id self' = self_twin_id self ∧
    self_device_id self' = self_device_id self ∧
    physical_history self' = physical_history self ++ snapshots ∧
    twin_history self' = twin_history self ++ returned outcomes ∧
    proof_chain self' = proof_chain self ++ (proof_hash <$> returned outcomes) ∧
    predictions self' = predictions self ++ new_predictions ∧
    length new_predictions = length (returned outcomes) ∧
    length outcomes = length snapshots ∧
    Forall (λ outcome, ∀ e, outcome = Raise e → e = OverflowError) outcomes ∧
    Forall (λ twin_state, twin_id twin_state = self_twin_id self) (returned outcomes) ∧
    (∀ last_result, last (returned outcomes) = Some last_result →
       index_from_end (proof_chain self') 1 = Ok (proof_hash last_result) ∧
       index_from_end (twin_history self') 1 = Ok last_result).
Proof.
  destruct (b64_sync_all_effect self snapshots)
    as (self' & outcomes & new & Hrun & Hid & Hdev & Hphys & Htwin & Hproof
        & Hpred & Hnew & Hlen & Hexn & Hids).
  exists self', outcomes, new. do 11 (split; [done|]).
  intros last_result Hlast. rewrite Hproof, Htwin.
  destruct (returned outcomes) as [|r rs _] using rev_ind; [done|].
  rewrite last_snoc in Hlast. injection Hlast as ->.
  rewrite fmap_app, !app_assoc. simpl. by rewrite !index_from_end_last.
Qed.
End X8_histories.

(** X11: the anomaly count is bounded by the sensors at hand: it is not
    negative, at most the number of sensors of the new snapshot, and at
    most the number of sensors of the previous one. *)
Theorem X11_anomaly_count_bounded `{PyRuntime} self physical :
  ∃ self' twin_state,
    sync self physical = Ok (self', twin_state) ∧
    (0 ≤ anomalies_detected twin_state ≤ Z.of_nat (size (sensors physical)))%Z ∧
    (∀ hist prev, physical_history self = hist ++ [prev] →
       (anomalies_detected twin_state ≤ Z.of_nat (size (sensors prev)))%Z).
Proof.
  destruct (sync_spec self physical)
    as (sa & an & si & bc & score & predicted & _ & Han & _ & _ & _ & _ & ->).
  eexists _, _. split; [done|]. cbn [twin_state_of anomalies_detected].
  rewrite detect_anomalies_after in Han.
  destruct (last (physical_history self)) as [prev|] eqn:Hlast.
  - injection Han as <-. split.
    + split; [lia|]. apply inj_le, map_size_filter.
    + intros hist prev' E. rewrite E, last_snoc in Hlast. injection Hlast as ->.
      apply inj_le. unfold anomalous_keys.
      rewrite <- !size_dom. apply subseteq_size. intros key.
      rewrite !elem_of_dom. intros [v Hv].
      apply map_lookup_filter_Some in Hv as [_ (old & Hold & _)]. eauto.
  - injection Han as <-. split; [lia|]. intros hist prev E.
    rewrite E, last_snoc in Hlast. done.
Qed.

(** ** Scores and labels by call *)

Lemma level_C4_inv score : level_of_score score = "C-4 Transcendent" → 0.85 <= score.
Proof.
  intros Hlevel. destruct (Qlt_le_dec score 0.85) as [Hlt|]; [|done].
  destruct (level_of_score_tiers score) as (_ & H3 & H2 & H1 & H0).
  destruct (Qlt_le_dec score 0.20); [rewrite H0 in Hlevel by lra; done|].
  destruct (Qlt_le_dec score 0.50); [rewrite H1 in Hlevel by lra; done|].
  destruct (Qlt_le_dec score 0.70); [rewrite H2 in Hlevel by lra; done|].
  rewrite H3 in Hlevel by lra. done.
Qed.



Section Score_facts.
Context `{PyRuntime}.

(** The score of a call is at most what the two indicators that grow
    with history allow. *)
Lemma sync_score_le self physical self' twin_state :
  sync self physical = Ok (self', twin_state) →
  ∃ score,
    consciousness_level twin_state = level_of_score score ∧
    consciousness_score twin_state = py_round score 4 ∧
    score <= (4 + Qmin 1.0 (py_len (twin_history self) / 10)
              + confidence (S (length (physical_history self)))) / 6.
Proof.
  intros Hsync.
  destruct (sync_spec self physical)
    as (sa & an & si & bc & score & predicted & Hsa & _ & Hsi & Hbc & Hscore & _ & Hsync').
  rewrite Hsync in Hsync'. injection Hsync' as _ ->.
  exists score. split; [done|]. split; [done|].
  destruct (compute_sync_accuracy_unit (append_physical self physical) physical)
    as (sa' & Hsa' & Hsa_unit).
  destruct (sensor_integration_unit physical) as (si' & Hsi' & Hsi_unit).
  destruct (behavioral_consistency_unit (append_physical self physical))
    as (bc' & Hbc' & Hbc_unit).
  rewrite Hsa in Hsa'. rewrite Hsi in Hsi'. rewrite Hbc in Hbc'.
  injection Hsa' as <-. injection Hsi' as <-. injection Hbc' as <-.
  pose proof (Qmin_le_1 (health physical)) as Hatt.
  fold (_attention_focus physical) in Hatt.
  rewrite Hscore. apply Qle_shift_div_l; [lra|]. field_simplify. lra.
Qed.
End Score_facts.

(** X12: the top label needs history.  In a run of calls on a new engine
    no call before the eighth is labelled "C-4 Transcendent": until then
    the self-monitoring and prediction indicators, which only count
    calls, keep the score below 0.85. *)
Theorem X12_no_top_label_before_eighth_call `{PyRuntime}
    twin_id device_id snapshots self' results i twin_state :
  sync_all (__init__ twin_id device_id) snapshots = Ok (self', results) →
  results !! i = Some twin_state →
  consciousness_level twin_state = "C-4 Transcendent" →
  (7 ≤ i)%nat.
Proof.
  intros Hrun Hi Hlevel.
  destruct (sync_all_nth _ _ _ _ _ _ Hrun Hi)
    as (self_i & self_i' & p & Hp & Hcall & _ & Hphys & Htwin & _).
  destruct (sync_score_le _ _ _ _ Hcall) as (score & Hlev & _ & Hle).
  rewrite Hlev in Hlevel. apply level_C4_inv in Hlevel.
  destruct (decide (7 ≤ i)%nat) as [|Hsmall]; [done|]. exfalso.
  assert (length (physical_history self_i) = i) as Hlen_phys.
  { rewrite Hphys. simpl. rewrite length_take.
    apply lookup_lt_Some in Hp. lia. }
  simpl in Htwin.
  assert (Qmin 1.0 (py_len (twin_history self_i) / 10) <= 0.6) as Hsm.
  { apply Qle_trans with (py_len (twin_history self_i) / 10); [apply Q.le_min_r|].
    apply Qle_shift_div_r; [lra|]. unfold py_len. rewrite Htwin.
    apply Qle_trans with (inject_Z 6); [|by compute]. rewrite <- Zle_Qle. lia. }
  assert (confidence (S (length (physical_history self_i))) <= 0.35) as Hpa.
  { rewrite Hlen_phys. unfold confidence. case_decide; [lra|].
    apply Qle_trans with (inject_Z (Z.of_nat (S i)) / 20); [apply Q.le_min_r|].
    apply Qle_shift_div_r; [lra|].
    apply Qle_trans with (inject_Z 7); [|by compute]. rewrite <- Zle_Qle. lia. }
  revert Hle Hsm Hpa Hlevel.
  generalize (Qmin 1.0 (py_len (twin_history self_i) / 10)).
  generalize (confidence (S (length (physical_history self_i)))).
  intros pa sm Hle Hsm Hpa Hlevel.
  assert ((4 + sm + pa) / 6 <= 0.825) by (apply Qle_shift_div_r; lra).
  lra.
Qed.

Lemma X12_no_top_label_before_eighth_call_witness :
  ∃ self' results twin_state,
    sync_all (H := reference_runtime) twin_T1 (replicate 25 steady) = Ok (self', results) ∧
    results !! 24%nat = Some twin_state ∧
    consciousness_level twin_state = "C-4 Transcendent" ∧
    (7 ≤ 24)%nat.
Proof.
  eexists _, _, _. split; [vm_compute; reflexivity|].
  split; [vm_compute; reflexivity|]. split; [vm_compute; reflexivity|].
  eapply (X12_no_top_label_before_eighth_call (H := reference_runtime) "T1" "D1"
            (replicate 25 steady)).
  - vm_compute. reflexivity.
  - vm_compute. reflexivity.
  - vm_compute. reflexivity.
Defined.

(** X13: the first call of an engine is scored at most 0.55, so it is
    never labelled "C-3 Autonomous" or "C-4 Transcendent"; when the
    snapshot's health is not negative the label is "C-1 Functional" or
    "C-2 Emerging". *)
Theorem X13_first_call_label `{PyRuntime} twin_id device_id physical :
  ∃ self' twin_state,
    sync (__init__ twin_id device_id) physical = Ok (self', twin_state) ∧
    consciousness_score twin_state <= 0.55 ∧
    consciousness_level twin_state ≠ "C-3 Autonomous" ∧
    consciousness_level twin_state ≠ "C-4 Transcendent" ∧
    (0 <= health physical →
       consciousness_level twin_state = "C-1 Functional" ∨
       consciousness_level twin_state = "C-2 Emerging").
Proof.
  destruct (sync_spec (__init__ twin_id device_id) physical)
    as (sa & an & si & bc & score & predicted & Hsa & _ & Hsi & Hbc & Hscore & _ & ->).
  eexists _, _. split; [done|].
  cbn [twin_state_of consciousness_score consciousness_level].
  rewrite compute_sync_accuracy_first in Hsa by done. injection Hsa as <-.
  assert (bc = 0.5) as ->.
  { unfold _behavioral_consistency in Hbc.
    rewrite decide_True in Hbc by (simpl; lia). by injection Hbc. }
  destruct (sensor_integration_unit physical) as (si' & Hsi' & Hsi_unit).
  rewrite Hsi in Hsi'. injection Hsi' as <-.
  pose proof (Qmin_le_1 (health physical)) as Hatt.
  fold (_attention_focus physical) in Hatt.
  assert (score == (1.3 + si + _attention_focus physical) / 6) as Hvalue.
  { rewrite Hscore. cbn [__init__ twin_history physical_history length].
    assert (Qmin 1.0 (py_len (@nil TwinState) / 10) == 0) as -> by reflexivity.
    assert (confidence 1 == 0.3) as -> by reflexivity.
    field. }
  assert (score <= 0.55) as Hle
    by (rewrite Hvalue; apply Qle_shift_div_r; lra).
  destruct (level_of_score_tiers score) as (_ & _ & H2 & H1 & H0).
  assert (level_of_score score ≠ "C-3 Autonomous"
          ∧ level_of_score score ≠ "C-4 Transcendent") as [Hne3 Hne4].
  { destruct (Qlt_le_dec score 0.20); [rewrite H0 by lra; done|].
    destruct (Qlt_le_dec score 0.50); [rewrite H1 by lra; done|].
    rewrite H2 by lra. done. }
  split; [|split; [done|split; [done|]]].
  - apply Qle_trans with (py_round 0.55 4); [by apply py_round_mono|by compute].
  - intros Hhealth.
    assert (0 <= _attention_focus physical) by (apply Q.min_glb; lra).
    assert (0.2 <= score) by (rewrite Hvalue; apply Qle_shift_div_l; lra).
    destruct (Qlt_le_dec score 0.50); [left; apply H1; lra|right; apply H2; lra].
Qed.

Lemma X13_first_call_label_witness :
  ∃ self' twin_state,
    sync (H := reference_runtime) twin_T1 overhealthy = Ok (self', twin_state) ∧
    (consciousness_level twin_state = "C-1 Functional" ∨
     consciousness_level twin_state = "C-2 Emerging").
Proof.
  destruct (X13_first_call_label (H := reference_runtime) "T1" "D1" overhealthy)
    as (self' & twin_state & Hsync & _ & _ & _ & Hlabel).
  exists self', twin_state. split; [exact Hsync|]. apply Hlabel. by compute.
Defined.


(** ** A sensor that appears *)





(** ** The demonstration run *)

Section Demo_facts.
Context `{PyRuntime}.

Lemma sync_score_unit self physical self' twin_state :
  sync self physical = Ok (self', twin_state) →
  0 <= health physical →
  0 <= consciousness_score twin_state <= 1.
Proof.
  intros Hsync Hhealth.
  destruct (sync_spec self physical)
    as (sa & an & si & bc & score & predicted & Hsa & _ & Hsi & Hbc & Hscore & _ & Hsync').
  rewrite Hsync in Hsync'. injection Hsync' as _ ->.
  cbn [twin_state_of consciousness_score].
  destruct (compute_sync_accuracy_unit (append_physical self physical) physical)
    as (sa' & Hsa' & Hsa_unit).
  destruct (sensor_integration_unit physical) as (si' & Hsi' & Hsi_unit).
  destruct (behavioral_consistency_unit (append_physical self physical))
    as (bc' & Hbc' & Hbc_unit).
  rewrite Hsa in Hsa'. rewrite Hsi in Hsi'. rewrite Hbc in Hbc'.
  injection Hsa' as <-. injection Hsi' as <-. injection Hbc' as <-.
  pose proof (confidence_unit (S (length (physical_history self)))) as Hpa.
  assert (0 <= Qmin 1.0 (py_len (twin_history self) / 10) <= 1) as Hsm.
  { apply Qmin_unit_l. apply Qle_shift_div_l; [lra|].
    pose proof (py_len_nonneg (twin_history self)). lra. }
  assert (0 <= _attention_focus physical <= 1) as Hatt
    by (split; [apply Q.min_glb; lra|apply Qmin_le_1]).
  split.
  - apply py_round_nonneg. rewrite Hscore. apply Qle_shift_div_l; lra.
  - apply py_round_le_1. rewrite Hscore. apply Qle_shift_div_r; lra.
Qed.
End Demo_facts.

Lemma demo_health_range i random now :
  0.3 <= health (demo_physical i random now) <= 1.
Proof.
  cbn [demo_physical health].
  assert (0 <= inject_Z (Z.of_nat i)) as Hi
    by (change 0 with (inject_Z 0); rewrite <- Zle_Qle; lia).
  destruct (Q.max_spec 0.3 (1.0 - inject_Z (Z.of_nat i) * 0.03)) as [[? E]|[? E]];
    rewrite E; lra.
Qed.

Lemma demo_snapshots_lookup random clock i physical :
  demo_snapshots random clock !! i = Some physical →
  physical = demo_physical i (random i) (clock i) ∧ (i < 15)%nat.
Proof.
  unfold demo_snapshots. rewrite list_lookup_fmap. intros Hi.
  destruct (seq 0 15 !! i) as [j|] eqn:Hj; [|done].
  apply lookup_seq in Hj as [-> ?]. simpl in Hi. by injection Hi as <-.
Qed.

(** X16: the demonstration stays inside the intended ranges.  Whatever
    the random draws and the clock, every snapshot of [demo] has a
    health within [0.3, 1], all fifteen calls return with a
    [consciousness_score] within [0, 1] and the twin's id, and the
    [proof_chain[-1]] read at the end is the hash of the last record. *)
Theorem X16_demo_within_ranges `{PyRuntime} random clock :
  ∃ twin states last_state,
    demo random clock = Ok (twin, states) ∧
    length states = 15%nat ∧
    length (proof_chain twin) = 15%nat ∧
    Forall (λ physical, 0.3 <= health physical <= 1) (demo_snapshots random clock) ∧
    Forall (λ twin_state,
              0 <= consciousness_score twin_state <= 1 ∧
              twin_id twin_state = "DT-KUKA-KR6-01") states ∧
    last states = Some last_state ∧
    index_from_end (proof_chain twin) 1 = Ok (proof_hash last_state).
Proof.
  unfold demo.
  destruct (sync_all_appends (__init__ "DT-KUKA-KR6-01" "robot-arm-kuka-kr6")
              (demo_snapshots random clock))
    as (twin & states & new & Hrun & _ & _ & _ & _ & Hproof & _ & Hlen & _ & Hids).
  assert (length (demo_snapshots random clock) = 15%nat) as Hfifteen
    by (unfold demo_snapshots; by rewrite length_fmap).
  rewrite Hfifteen in Hlen.
  destruct states as [|last_state states _] using rev_ind; [done|].
  exists twin, (states ++ [last_state]), last_state.
  split; [done|]. split; [done|].
  split; [rewrite Hproof; simpl; by rewrite length_fmap|].
  split; [|split; [|split]].
  - apply Forall_forall. intros physical Hin. unfold demo_snapshots in Hin.
    apply list_elem_of_fmap in Hin as (i & -> & _).
    exact (demo_health_range i (random i) (clock i)).
  - apply Forall_lookup. intros i twin_state Hi. split.
    + destruct (sync_all_nth _ _ _ _ _ _ Hrun Hi)
        as (self_i & self_i' & p & Hp & Hcall & _).
      apply demo_snapshots_lookup in Hp as [-> _].
      apply (sync_score_unit _ _ _ _ Hcall).
      pose proof (demo_health_range i (random i) (clock i)). lra.
    + rewrite Forall_lookup in Hids. exact (Hids i twin_state Hi).
  - apply last_snoc.
  - rewrite Hproof, fmap_app. simpl. apply index_from_end_last.
Qed.

(** The readings of two consecutive demonstration snapshots. *)
Lemma six_readings_lookup (t v c j1 j2 p : Q) key x :
  (list_to_map [("temperature", t); ("vibration", v); ("current", c);
                ("torque_j1", j1); ("torque_j2", j2); ("position_accuracy", p)]
     : gmap string Q) !! key = Some x →
  (key = "vibration" → x = v) ∧ (key = "position_accuracy" → x = p).
Proof.
  intros Hkey. split; intros ->; revert Hkey; cbn [list_to_map foldr fst snd];
    rewrite !lookup_insert; repeat (case_decide; [done|]); case_decide; congruence.
Qed.

Lemma six_readings_loud (t v c j1 j2 p : Q) :
  size (filter (λ reading : string * Q,
                  reading.1 ≠ "vibration" ∧ reading.1 ≠ "position_accuracy")
               (list_to_map [("temperature", t); ("vibration", v); ("current", c);
                             ("torque_j1", j1); ("torque_j2", j2);
                             ("position_accuracy", p)] : gmap string Q)) = 4%nat.
Proof. vm_compute. reflexivity. Qed.

Lemma demo_sensors_lookup i random now key :
  sensors (demo_physical i random now) !! key
    = (list_to_map
         [("temperature", 25.0 + random 0%nat * 5 + inject_Z (Z.of_nat i) * 0.3);
          ("vibration", 0.1 + random 1%nat * 0.3);
          ("current", 2.5 + random 2%nat * 1.0);
          ("torque_j1", 10.0 + random 3%nat * 5.0);
          ("torque_j2", 8.0 + random 4%nat * 4.0);
          ("position_accuracy",
           Qmax 0.1 (0.99 - inject_Z (Z.of_nat i) * 0.02 - random 5%nat * 0.05))]
       : gmap string Q) !! key.
Proof. reflexivity. Qed.

(** Between two consecutive demonstration snapshots the vibration and
    the position accuracy cannot move by more than 0.5. *)
Lemma demo_anomalies_le_4 i random random' now now' :
  (∀ k, 0 <= random k < 1) → (∀ k, 0 <= random' k < 1) →
  (anomalous_keys (sensors (demo_physical i random now))
                  (sensors (demo_physical (S i) random' now')) ≤ 4)%nat.
Proof.
  intros Hr Hr'. unfold anomalous_keys.
  rewrite <- (six_readings_loud
    (25.0 + random' 0%nat * 5 + inject_Z (Z.of_nat (S i)) * 0.3)
    (0.1 + random' 1%nat * 0.3) (2.5 + random' 2%nat * 1.0)
    (10.0 + random' 3%nat * 5.0) (8.0 + random' 4%nat * 4.0)
    (Qmax 0.1 (0.99 - inject_Z (Z.of_nat (S i)) * 0.02 - random' 5%nat * 0.05))).
  apply map_subseteq_size, map_filter_subseteq_ext.
  intros key x Hx Hanomalous. cbn [fst].
  apply anomalous_iff in Hanomalous as (old & Hold & Hmoved).
  rewrite demo_sensors_lookup in Hold.
  apply six_readings_lookup in Hx as [Hvib Hpos].
  apply six_readings_lookup in Hold as [Hvib_old Hpos_old].
  split; intros ->.
  - rewrite (Hvib eq_refl), (Hvib_old eq_refl) in Hmoved.
    pose proof (Hr 1%nat). pose proof (Hr' 1%nat).
    revert Hmoved. apply Qabs_case; intros; lra.
  - rewrite (Hpos eq_refl), (Hpos_old eq_refl) in Hmoved.
    pose proof (Hr 5%nat). pose proof (Hr' 5%nat).
    rewrite Nat2Z.inj_succ, <- Z.add_1_r, inject_Z_plus in Hmoved.
    change (inject_Z 1) with 1 in Hmoved.
    revert Hmoved. generalize (inject_Z (Z.of_nat i)). intros qi.
    destruct (Q.max_spec 0.1 (0.99 - (qi + 1) * 0.02 - random' 5%nat * 0.05))
      as [[? E]|[? E]]; rewrite E;
    destruct (Q.max_spec 0.1 (0.99 - qi * 0.02 - random 5%nat * 0.05))
      as [[? E']|[? E']]; rewrite E';
    apply Qabs_case; intros; lra.
Qed.

(** X17: in the demonstration at most four sensors can be flagged.
    With draws in [0, 1), as [random.random()] gives them, the vibration
    and the position accuracy never move by more than 0.5 between two
    snapshots, so every call reports between 0 and 4 anomalies, and the
    first call reports none. *)
Theorem X17_demo_anomalies_at_most_four `{PyRuntime} random clock :
  (∀ i k, 0 <= random i k < 1) →
  ∃ twin states first_state,
    demo random clock = Ok (twin, states) ∧
    Forall (λ twin_state, (0 ≤ anomalies_detected twin_state ≤ 4)%Z) states ∧
    states !! 0%nat = Some first_state ∧
    anomalies_detected first_state = 0%Z.
Proof.
  intros Hrandom. unfold demo.
  destruct (sync_all_appends (__init__ "DT-KUKA-KR6-01" "robot-arm-kuka-kr6")
              (demo_snapshots random clock))
    as (twin & states & new & Hrun & _ & _ & _ & _ & _ & _ & Hlen & _).
  assert (∀ i twin_state, states !! i = Some twin_state →
            (0 ≤ anomalies_detected twin_state ≤ 4)%Z ∧
            (i = 0%nat → anomalies_detected twin_state = 0%Z)) as Hcount.
  { intros i twin_state Hi.
    destruct (sync_all_nth _ _ _ _ _ _ Hrun Hi)
      as (self_i & self_i' & p & Hp & Hcall & _ & Hphys & _).
    destruct (sync_spec self_i p)
      as (sa & an & si & bc & score & predicted & _ & Han & _ & _ & _ & _ & Hcall').
    rewrite Hcall in Hcall'. injection Hcall' as _ ->.
    cbn [twin_state_of anomalies_detected].
    rewrite detect_anomalies_after, Hphys in Han. simpl in Han.
    destruct i as [|i].
    - rewrite take_0 in Han. simpl in Han. injection Han as <-. split; [lia|done].
    - assert (is_Some (demo_snapshots random clock !! i)) as [prev Hprev].
      { apply lookup_lt_is_Some. apply lookup_lt_Some in Hp. lia. }
      rewrite (take_S_r _ _ _ Hprev), last_snoc in Han. injection Han as <-.
      apply demo_snapshots_lookup in Hp as [-> _].
      apply demo_snapshots_lookup in Hprev as [-> _].
      split; [|done]. split; [lia|].
      apply (inj_le _ 4), demo_anomalies_le_4; apply Hrandom. }
  assert (length (demo_snapshots random clock) = 15%nat) as Hfifteen
    by (unfold demo_snapshots; by rewrite length_fmap).
  rewrite Hfifteen in Hlen.
  destruct states as [|first_state states]; [done|].
  exists twin, (first_state :: states), first_state.
  split; [done|]. split; [|split; [done|]].
  - apply Forall_lookup. intros i twin_state Hi. exact (proj1 (Hcount i twin_state Hi)).
  - exact (proj2 (Hcount 0%nat first_state eq_refl) eq_refl).
Qed.

Lemma X17_demo_anomalies_at_most_four_witness :
  ∃ twin states,
    demo (H := reference_runtime) sample_random sample_clock = Ok (twin, states) ∧
    Forall (λ twin_state, (0 ≤ anomalies_detected twin_state ≤ 4)%Z) states.
Proof.
  destruct (X17_demo_anomalies_at_most_four (H := reference_runtime)
              sample_random sample_clock)
    as (twin & states & first_state & Hrun & Hcount & _).
  - intros i k. unfold sample_random.
    pose proof (Nat.mod_upper_bound (7 * i + 3 * k) 10 ltac:(lia)) as Hlt.
    split.
    + apply Qle_shift_div_l; [lra|]. rewrite Qmult_0_l.
      change 0 with (inject_Z 0). rewrite <- Zle_Qle. lia.
    + apply Qlt_shift_div_r; [lra|]. rewrite Qmult_1_l.
      change 10 with (inject_Z 10). rewrite <- Zlt_Qlt. lia.
  - exists twin, states. split; [exact Hrun|exact Hcount].
Defined.
